(** * go.sns: verification of Amazon SNS HTTP POST payloads

    A shallow embedding of [main.go] (package [sns]): the canonical
    signer-string builder [BuildSignature], the algorithm selection
    [SignatureAlgorithm], the certificate host pattern [hostPattern] and
    the three network-facing methods [VerifyPayload], [Subscribe] and
    [Unsubscribe].

    Go [string] is [string] (a sequence of 8-bit characters), [[]byte] is
    [list byte], and the conversion [[]byte(s)] is [list_byte_of_string]. *)

From Stdlib Require Import String Ascii List Bool Arith ZArith NArith Lia.
From Stdlib.Strings Require Import Byte.
Import ListNotations.
Local Open Scope string_scope.
Local Open Scope list_scope.

(** ** Strings and byte buffers *)

(** The one-character Go string ["\n"]. *)
Definition LF : string := String "010"%char EmptyString.

(** [[]byte(s)] *)
Definition bytes_of (s : string) : list byte := list_byte_of_string s.

(** [bytes.Buffer]: only the written contents matter here. *)
Module Buffer.
Definition t := list byte.
(** [var b bytes.Buffer] *)
Definition zero : t := [].
(** [b.WriteString(s)] *)
Definition WriteString (b : t) (s : string) : t := b ++ bytes_of s.
(** [b.Bytes()] *)
Definition Bytes (b : t) : list byte := b.
End Buffer.

(** ** The payload record *)

(** [type Payload struct], one SNS POST; every field is a Go string. *)
Record Payload := mkPayload {
  Message          : string;
  MessageId        : string;
  Signature        : string;
  SignatureVersion : string;
  SigningCertURL   : string;
  SubscribeURL     : string;
  Subject          : string;
  Timestamp        : string;
  Token            : string;
  TopicArn         : string;
  Type_            : string;
  UnsubscribeURL   : string
}.

(** ** The part of package [reflect] that [BuildSignature] uses *)

Module reflect.
(** A [reflect.Value] obtained from a field of [Payload]: the zero
    (invalid) Value, or a string. *)
Inductive Value :=
| Invalid
| StringValue (s : string).

(** [reflect.Indirect(reflect.ValueOf(payload)).FieldByName(key)]:
    the field of that name, the zero Value when the struct has none. *)
Definition FieldByName (payload : Payload) (key : string) : Value :=
  if key =? "Message" then StringValue (Message payload)
  else if key =? "MessageId" then StringValue (MessageId payload)
  else if key =? "Signature" then StringValue (Signature payload)
  else if key =? "SignatureVersion" then StringValue (SignatureVersion payload)
  else if key =? "SigningCertURL" then StringValue (SigningCertURL payload)
  else if key =? "SubscribeURL" then StringValue (SubscribeURL payload)
  else if key =? "Subject" then StringValue (Subject payload)
  else if key =? "Timestamp" then StringValue (Timestamp payload)
  else if key =? "Token" then StringValue (Token payload)
  else if key =? "TopicArn" then StringValue (TopicArn payload)
  else if key =? "Type" then StringValue (Type_ payload)
  else if key =? "UnsubscribeURL" then StringValue (UnsubscribeURL payload)
  else Invalid.

(** [v.String()]: the string itself; for the zero Value the text
    ["<invalid Value>"]. *)
Definition String_ (v : Value) : string :=
  match v with
  | StringValue s => s
  | Invalid => "<invalid Value>"
  end.

(** [v.IsValid()] *)
Definition IsValid (v : Value) : bool :=
  match v with
  | StringValue _ => true
  | Invalid => false
  end.
End reflect.

(** ** BuildSignature *)

(** [signableKeys] of [BuildSignature], in declaration order. *)
Definition signableKeys : list string :=
  ["Message"; "MessageId"; "Subject"; "SubscribeURL";
   "Timestamp"; "Token"; "TopicArn"; "Type"].

(** One iteration of the [for _, key := range signableKeys] loop. *)
Definition BuildSignature_step (payload : Payload)
    (builtSignature : Buffer.t) (key : string) : Buffer.t :=
  let field := reflect.FieldByName payload key in
  let value := reflect.String_ field in
  if reflect.IsValid field && negb (value =? EmptyString) then
    let builtSignature := Buffer.WriteString builtSignature (key ++ LF) in
    Buffer.WriteString builtSignature (value ++ LF)
  else builtSignature.

(** The loop of [BuildSignature] over a list of keys, from a buffer. *)
Definition BuildSignature_loop (payload : Payload)
    (keys : list string) (builtSignature : Buffer.t) : Buffer.t :=
  fold_left (BuildSignature_step payload) keys builtSignature.

(** [func (payload *Payload) BuildSignature() []byte] *)
Definition BuildSignature (payload : Payload) : list byte :=
  Buffer.Bytes (BuildSignature_loop payload signableKeys Buffer.zero).

(** *** The canonical bytes as the specification words them

    Following the specification's words: the eight signable fields as
    (name, value) pairs in the fixed order, and for each non-empty value
    the bytes of [name "\n" value "\n"]. *)

Definition spec_signable_fields (p : Payload) : list (string * string) :=
  [("Message", Message p); ("MessageId", MessageId p);
   ("Subject", Subject p); ("SubscribeURL", SubscribeURL p);
   ("Timestamp", Timestamp p); ("Token", Token p);
   ("TopicArn", TopicArn p); ("Type", Type_ p)].

Definition spec_entry (nv : string * string) : list byte :=
  match snd nv with
  | EmptyString => []
  | String _ _ =>
      bytes_of (fst nv) ++ [x0a] ++ bytes_of (snd nv) ++ [x0a]
  end.

Definition spec_canonical_bytes (p : Payload) : list byte :=
  concat (map spec_entry (spec_signable_fields p)).

(** ** SignatureAlgorithm *)

Module x509.
(** [type SignatureAlgorithm int] of [crypto/x509], with its named
    constants. *)
Inductive SignatureAlgorithm :=
| UnknownSignatureAlgorithm
| MD2WithRSA
| MD5WithRSA
| SHA1WithRSA
| SHA256WithRSA
| SHA384WithRSA
| SHA512WithRSA
| DSAWithSHA1
| DSAWithSHA256
| ECDSAWithSHA1
| ECDSAWithSHA256
| ECDSAWithSHA384
| ECDSAWithSHA512
| SHA256WithRSAPSS
| SHA384WithRSAPSS
| SHA512WithRSAPSS
| PureEd25519.
End x509.

(** [func (payload *Payload) SignatureAlgorithm() x509.SignatureAlgorithm] *)
Definition SignatureAlgorithm (payload : Payload) : x509.SignatureAlgorithm :=
  if SignatureVersion payload =? "2" then x509.SHA256WithRSA
  else x509.SHA1WithRSA.

(** ** The part of package [regexp] that [hostPattern] uses

    The text is matched byte by byte. Go matches rune by rune; the
    pattern names ASCII characters only, and a byte outside ASCII matches
    none of them either way. [Match] looks for a match anywhere in the
    text; it is the [^] and [$] of a pattern that tie it to the ends. *)

Module regexp.
(** Syntax trees of the regular expressions, with the operators of
    [regexp/syntax] that the pattern needs. *)
Inductive Regexp :=
| EmptyMatch                                  (* matches the empty string *)
| BeginText                                   (* ^ : at the start of the text *)
| EndText                                     (* $ : at the end of the text *)
| Literal (c : byte)                          (* one literal byte, also an escaped one *)
| CharClass (ranges : list (byte * byte))     (* [lo-hi...] *)
| Concat (r1 r2 : Regexp)                     (* r1 r2 *)
| Repeat (min : nat) (r : Regexp)             (* r{min,} *)
| Quest (r : Regexp)                          (* r? *)
| Capture (r : Regexp).                       (* (r) *)

(** The literal string [s], byte by byte. *)
Fixpoint Literals (s : list byte) : Regexp :=
  match s with
  | [] => EmptyMatch
  | c :: s' => Concat (Literal c) (Literals s')
  end.

(** [c] lies in the inclusive range [lo-hi]. *)
Definition in_range (c : byte) (r : byte * byte) : bool :=
  (Byte.to_N (fst r) <=? Byte.to_N c)%N && (Byte.to_N c <=? Byte.to_N (snd r))%N.

(** A continuation of the matcher: what must still match, from the
    given offset and remaining input. *)
Definition cont := nat -> list byte -> bool.

(** [n] successive matches of [step], then [k]. *)
Fixpoint times (step : nat -> list byte -> cont -> bool)
    (n : nat) (i : nat) (s : list byte) (k : cont) : bool :=
  match n with
  | 0 => k i s
  | S n' => step i s (fun i' s' => times step n' i' s' k)
  end.

(** Any number of successive matches of [step], then [k]. An iteration
    that consumes no input is not repeated; [fuel] bounds the number of
    iterations that consume some. *)
Fixpoint star (step : nat -> list byte -> cont -> bool)
    (fuel : nat) (i : nat) (s : list byte) (k : cont) : bool :=
  k i s ||
  match fuel with
  | 0 => false
  | S fuel' =>
      step i s (fun i' s' => (List.length s' <? List.length s)%nat && star step fuel' i' s' k)
  end.

(** [run r i s k]: some match of [r] that starts at offset [i] of the
    text, where [s] is the input from there on, can be followed by [k]. *)
Fixpoint run (r : Regexp) (i : nat) (s : list byte) (k : cont) : bool :=
  match r with
  | EmptyMatch => k i s
  | BeginText => (i =? 0)%nat && k i s
  | EndText => match s with [] => k i s | _ :: _ => false end
  | Literal c =>
      match s with
      | x :: s' => Byte.eqb x c && k (S i) s'
      | [] => false
      end
  | CharClass ranges =>
      match s with
      | x :: s' => existsb (in_range x) ranges && k (S i) s'
      | [] => false
      end
  | Concat r1 r2 => run r1 i s (fun i' s' => run r2 i' s' k)
  | Repeat min r' =>
      times (run r') min i s (fun i' s' => star (run r') (List.length s') i' s' k)
  | Quest r' => run r' i s k || k i s
  | Capture r' => run r' i s k
  end.

(** A match of [re] starting at offset [i] or later. *)
Fixpoint search (re : Regexp) (i : nat) (s : list byte) : bool :=
  run re i s (fun _ _ => true) ||
  match s with
  | [] => false
  | _ :: s' => search re (S i) s'
  end.

(** [re.Match(b)]: whether the byte slice [b] contains any match of
    [re]. *)
Definition Match (re : Regexp) (b : list byte) : bool := search re 0 b.

(** *** What a regular expression matches

    [Matches r i s i' s']: in a text whose part from offset [i] on is
    [s], the expression [r] matches from offset [i] up to offset [i'],
    leaving [s']. *)
Inductive Matches : Regexp -> nat -> list byte -> nat -> list byte -> Prop :=
| M_EmptyMatch i s : Matches EmptyMatch i s i s
| M_BeginText s : Matches BeginText 0 s 0 s
| M_EndText i : Matches EndText i [] i []
| M_Literal c i s : Matches (Literal c) i (c :: s) (S i) s
| M_CharClass ranges c i s :
    existsb (in_range c) ranges = true ->
    Matches (CharClass ranges) i (c :: s) (S i) s
| M_Concat r1 r2 i s i1 s1 i2 s2 :
    Matches r1 i s i1 s1 -> Matches r2 i1 s1 i2 s2 ->
    Matches (Concat r1 r2) i s i2 s2
| M_Repeat_done r i s : Matches (Repeat 0 r) i s i s
| M_Repeat_iter min r i s i1 s1 i2 s2 :
    Matches r i s i1 s1 -> Matches (Repeat (pred min) r) i1 s1 i2 s2 ->
    Matches (Repeat min r) i s i2 s2
| M_Quest_some r i s i' s' : Matches r i s i' s' -> Matches (Quest r) i s i' s'
| M_Quest_none r i s : Matches (Quest r) i s i s
| M_Capture r i s i' s' : Matches r i s i' s' -> Matches (Capture r) i s i' s'.
End regexp.

Import regexp.

(** The character class [[a-zA-Z0-9\-]] of [hostPattern], as ranges. *)
Definition hostPattern_class : list (byte * byte) :=
  [("a"%byte, "z"%byte); ("A"%byte, "Z"%byte);
   ("0"%byte, "9"%byte); ("-"%byte, "-"%byte)].

(** [var hostPattern = regexp.MustCompile(
      `^sns\.[a-zA-Z0-9\-]{3,}\.amazonaws\.com(\.cn)?$`)] *)
Definition hostPattern : Regexp :=
  Concat BeginText
 (Concat (Literals (bytes_of "sns."))
 (Concat (Repeat 3 (CharClass hostPattern_class))
 (Concat (Literals (bytes_of ".amazonaws.com"))
 (Concat (Quest (Capture (Literals (bytes_of ".cn"))))
         EndText)))).

(** The host grammar as the specification words it: ["sns."], then three
    or more characters out of the letters, the digits and the hyphen, then
    [".amazonaws.com"], then nothing or [".cn"], and nothing before or
    after. *)
Definition spec_region_chars : list byte :=
  bytes_of "abcdefghijklmnopqrstuvwxyzABCDEFGHIJKLMNOPQRSTUVWXYZ0123456789-".

Definition spec_trusted_host (h : list byte) : Prop :=
  exists region tail,
    h = bytes_of "sns." ++ region ++ bytes_of ".amazonaws.com" ++ tail /\
    3 <= List.length region /\
    (forall c, In c region -> In c spec_region_chars) /\
    (tail = [] \/ tail = bytes_of ".cn").

(** ** Errors *)

(** A Go [error] value: one made in this package by [errors.New] or
    [fmt.Errorf], or one handed back by a library call. *)
Inductive error :=
| errorString (s : string)
| library_error (msg : string).

(** [errors.New(text)] *)
Definition errors_New (text : string) : error := errorString text.

(** [fmt.Errorf(format)] for a format without verbs, the only use here. *)
Definition fmt_Errorf (format : string) : error := errorString format.

(** A Go result pair [(value, err)] of which the caller reads the value
    only when [err == nil]. *)
Inductive result (A : Type) :=
| Ok (a : A)
| Err (err : error).
Arguments Ok {A} a.
Arguments Err {A} err.

(** ** Library records *)

Module url.
(** [url.URL], without the user information. *)
Record URL := mkURL {
  Scheme   : string;
  Opaque   : string;
  Host     : string;
  Path     : string;
  RawQuery : string;
  Fragment : string
}.
End url.

Module http.
(** A response body: the bytes a reader gets out of it, and the error,
    if any, that ends the reading in place of the end of the stream. *)
Record Body := mkBody {
  content    : list byte;
  read_error : option error
}.

(** The fields of [http.Response] that matter here. *)
Record Response := mkResponse {
  StatusCode : Z;
  Body_      : Body
}.
End http.

Module pem.
(** [pem.Block] *)
Record Block := mkBlock {
  Type_   : string;
  Headers : list (string * string);
  Bytes   : list byte
}.
End pem.

Module xml.
(** [xml.Name] *)
Record Name := mkName {
  Space : string;
  Local : string
}.
End xml.

(** [type ConfirmSubscriptionResponse struct] *)
Record ConfirmSubscriptionResponse := mkConfirmSubscriptionResponse {
  Confirm_XMLName : xml.Name;
  SubscriptionArn : string;
  Confirm_RequestId : string
}.

(** [type UnsubscribeResponse struct] *)
Record UnsubscribeResponse := mkUnsubscribeResponse {
  Unsubscribe_XMLName : xml.Name;
  Unsubscribe_RequestId : string
}.

(** The zero values that [var response ...] declares. *)
Definition xml_Name_zero : xml.Name := {| xml.Space := EmptyString; xml.Local := EmptyString |}.

Definition ConfirmSubscriptionResponse_zero : ConfirmSubscriptionResponse :=
  {| Confirm_XMLName := xml_Name_zero; SubscriptionArn := EmptyString;
     Confirm_RequestId := EmptyString |}.

Definition UnsubscribeResponse_zero : UnsubscribeResponse :=
  {| Unsubscribe_XMLName := xml_Name_zero; Unsubscribe_RequestId := EmptyString |}.

(** ** The library calls and the network

    The functions of the Go standard library that the package calls, and
    the answers of the network, are parameters of the model. *)
Class Collaborators := {
  (** [*x509.Certificate] *)
  Certificate : Type;
  (** [base64.StdEncoding.DecodeString(s)] *)
  base64_DecodeString : string -> result (list byte);
  (** [url.Parse(rawURL)] *)
  url_Parse : string -> result url.URL;
  (** What [http.Get(url)] returns, given the URLs requested before. *)
  http_transport : list string -> string -> result http.Response;
  (** [pem.Decode(data)]: the first block, [nil] when there is none. *)
  pem_Decode : list byte -> option pem.Block;
  (** [x509.ParseCertificate(der)] *)
  x509_ParseCertificate : list byte -> result Certificate;
  (** [c.CheckSignature(algo, signed, signature)]: [nil] when the public
      key of [c] validates [signature] over [signed]. *)
  CheckSignature :
    Certificate -> x509.SignatureAlgorithm -> list byte -> list byte -> option error;
  (** [xml.Unmarshal(data, &response)]: the record after the call, and
      the error. *)
  xml_Unmarshal_Confirm :
    list byte -> ConfirmSubscriptionResponse -> ConfirmSubscriptionResponse * option error;
  xml_Unmarshal_Unsubscribe :
    list byte -> UnsubscribeResponse -> UnsubscribeResponse * option error
}.

(** ** The world outside the program *)

(** What the calls of the package leave behind: the URLs passed to
    [http.Get], oldest first, and the number of response bodies that are
    open. *)
Record World := mkWorld {
  requests    : list string;
  open_bodies : nat
}.

(** Computations that act on the world. *)
Definition M (A : Type) : Type := World -> A * World.

Definition ret {A : Type} (a : A) : M A := fun w => (a, w).

Definition bind {A B : Type} (c : M A) (f : A -> M B) : M B :=
  fun w => let (a, w') := c w in f a w'.

Notation "x <- c ;; k" := (bind c (fun x => k))
  (at level 61, c at next level, right associativity).

(** [defer d]: [d] runs when the rest of the function body returns. *)
Definition defer {A : Type} (d : M unit) (body : M A) : M A :=
  a <- body ;; _ <- d ;; ret a.

(** [ioutil.ReadAll(body)] *)
Definition ioutil_ReadAll (body : http.Body) : result (list byte) :=
  match http.read_error body with
  | Some err => Err err
  | None => Ok (http.content body)
  end.

Section Methods.
Context {C : Collaborators}.

(** [http.Get(url)]: the call is recorded; a response comes with an
    open body. *)
Definition http_Get (url : string) : M (result http.Response) := fun w =>
  let r := http_transport (requests w) url in
  (r, {| requests := requests w ++ [url];
         open_bodies := match r with
                        | Ok _ => S (open_bodies w)
                        | Err _ => open_bodies w
                        end |}).

(** [resp.Body.Close()] *)
Definition Body_Close (resp : http.Response) : M unit := fun w =>
  (tt, {| requests := requests w; open_bodies := pred (open_bodies w) |}).

(** [func (payload *Payload) VerifyPayload() error]; [None] is [nil]. *)
Definition VerifyPayload (payload : Payload) : M (option error) :=
  match base64_DecodeString (Signature payload) with
  | Err err => ret (Some err)
  | Ok payloadSignature =>
  match url_Parse (SigningCertURL payload) with
  | Err err => ret (Some err)
  | Ok certURL =>
  if negb (url.Scheme certURL =? "https") then
    ret (Some (fmt_Errorf "url should be using https"))
  else
  if negb (regexp.Match hostPattern (bytes_of (url.Host certURL))) then
    ret (Some (fmt_Errorf "certificate is located on an invalid domain"))
  else
  r <- http_Get (SigningCertURL payload) ;;
  match r with
  | Err err => ret (Some err)
  | Ok resp =>
  defer (Body_Close resp) (
    match ioutil_ReadAll (http.Body_ resp) with
    | Err err => ret (Some err)
    | Ok body =>
    match pem_Decode body with
    | None => ret (Some (errors_New "The decoded PEM file was empty!"))
    | Some decodedPem =>
    match x509_ParseCertificate (pem.Bytes decodedPem) with
    | Err err => ret (Some err)
    | Ok parsedCertificate =>
        ret (CheckSignature parsedCertificate (SignatureAlgorithm payload)
               (BuildSignature payload) payloadSignature)
    end end end)
  end end end.

(** [func (payload *Payload) Subscribe() (ConfirmSubscriptionResponse, error)] *)
Definition Subscribe (payload : Payload)
    : M (ConfirmSubscriptionResponse * option error) :=
  let response := ConfirmSubscriptionResponse_zero in
  if SubscribeURL payload =? EmptyString then
    ret (response, Some (errors_New "Payload does not have a SubscribeURL!"))
  else
  r <- http_Get (SubscribeURL payload) ;;
  match r with
  | Err err => ret (response, Some err)
  | Ok resp =>
  defer (Body_Close resp) (
    match ioutil_ReadAll (http.Body_ resp) with
    | Err err => ret (response, Some err)
    | Ok body =>
        let (response, xmlErr) := xml_Unmarshal_Confirm body response in
        match xmlErr with
        | Some xmlErr => ret (response, Some xmlErr)
        | None => ret (response, None)
        end
    end)
  end.

(** [func (payload *Payload) Unsubscribe() (UnsubscribeResponse, error)] *)
Definition Unsubscribe (payload : Payload)
    : M (UnsubscribeResponse * option error) :=
  let response := UnsubscribeResponse_zero in
  r <- http_Get (UnsubscribeURL payload) ;;
  match r with
  | Err err => ret (response, Some err)
  | Ok resp =>
  defer (Body_Close resp) (
    match ioutil_ReadAll (http.Body_ resp) with
    | Err err => ret (response, Some err)
    | Ok body =>
        let (response, xmlErr) := xml_Unmarshal_Unsubscribe body response in
        match xmlErr with
        | Some xmlErr => ret (response, Some xmlErr)
        | None => ret (response, None)
        end
    end)
  end.
End Methods.

(** ** Relations between payloads *)

(** All twelve fields of two payloads hold the same values. *)
Definition same_fields (p q : Payload) : Prop :=
  Message p = Message q /\ MessageId p = MessageId q /\
  Signature p = Signature q /\ SignatureVersion p = SignatureVersion q /\
  SigningCertURL p = SigningCertURL q /\ SubscribeURL p = SubscribeURL q /\
  Subject p = Subject q /\ Timestamp p = Timestamp q /\
  Token p = Token q /\ TopicArn p = TopicArn q /\
  Type_ p = Type_ q /\ UnsubscribeURL p = UnsubscribeURL q.

(** The two payloads agree on the eight signable fields. *)
Definition same_signable_fields (p q : Payload) : Prop :=
  Message p = Message q /\ MessageId p = MessageId q /\
  Subject p = Subject q /\ SubscribeURL p = SubscribeURL q /\
  Timestamp p = Timestamp q /\ Token p = Token q /\
  TopicArn p = TopicArn q /\ Type_ p = Type_ q.

(** ** Sample inputs *)

(** A notification as SNS posts it. *)
Definition sample_notification : Payload :=
  {| Message := "hello"; MessageId := "id-1"; Signature := "c2ln";
     SignatureVersion := "1";
     SigningCertURL := "https://sns.us-east-1.amazonaws.com/cert.pem";
     SubscribeURL := EmptyString; Subject := EmptyString; Timestamp := "2020-01-01T00:00:00Z";
     Token := EmptyString; TopicArn := "arn:aws:sns:us-east-1:1:t";
     Type_ := "Notification"; UnsubscribeURL := "https://sns.us-east-1.amazonaws.com/?u" |}.

(** A message whose body holds a newline. *)
Definition multiline_message : Payload :=
  {| Message := "a" ++ LF ++ "b"; MessageId := EmptyString; Signature := EmptyString;
     SignatureVersion := EmptyString; SigningCertURL := EmptyString; SubscribeURL := EmptyString;
     Subject := EmptyString; Timestamp := EmptyString; Token := EmptyString; TopicArn := EmptyString;
     Type_ := EmptyString; UnsubscribeURL := EmptyString |}.

(** [sample_notification] with the four other fields replaced. *)
Definition sample_tampered : Payload :=
  {| Message := "hello"; MessageId := "id-1"; Signature := "AAAA";
     SignatureVersion := "2";
     SigningCertURL := "http://evil.example/cert.pem";
     SubscribeURL := EmptyString; Subject := EmptyString; Timestamp := "2020-01-01T00:00:00Z";
     Token := EmptyString; TopicArn := "arn:aws:sns:us-east-1:1:t";
     Type_ := "Notification"; UnsubscribeURL := EmptyString |}.

(** A payload without any URL. *)
Definition empty_payload : Payload :=
  {| Message := EmptyString; MessageId := EmptyString; Signature := EmptyString; SignatureVersion := EmptyString;
     SigningCertURL := EmptyString; SubscribeURL := EmptyString; Subject := EmptyString; Timestamp := EmptyString;
     Token := EmptyString; TopicArn := EmptyString; Type_ := EmptyString; UnsubscribeURL := EmptyString |}.

(** The world before any call. *)
Definition initial_world : World := {| requests := []; open_bodies := 0 |}.

(** A response with the given status whose body reads as [data]. *)
Definition response_with (status : Z) (data : string) : http.Response :=
  {| http.StatusCode := status;
     http.Body_ := {| http.content := bytes_of data; http.read_error := None |} |}.

(** Test doubles for the library calls: the signature text ["c2ln"]
    decodes to the bytes of ["sig"]; two URLs parse; every non-empty body
    is one PEM block that parses as a certificate, whose key validates
    exactly the signature ["sig"]; the network gives [answer] to every
    request. *)
Definition fixture (answer : result http.Response) : Collaborators :=
  {| Certificate := list byte;
     base64_DecodeString := fun s =>
       if s =? "c2ln" then Ok (bytes_of "sig")
       else Err (library_error "illegal base64 data at input byte 0");
     url_Parse := fun rawURL =>
       if rawURL =? "https://sns.us-east-1.amazonaws.com/cert.pem" then
         Ok {| url.Scheme := "https"; url.Opaque := EmptyString;
               url.Host := "sns.us-east-1.amazonaws.com";
               url.Path := "/cert.pem"; url.RawQuery := EmptyString; url.Fragment := EmptyString |}
       else if rawURL =? "http://evil.example/cert.pem" then
         Ok {| url.Scheme := "http"; url.Opaque := EmptyString;
               url.Host := "evil.example";
               url.Path := "/cert.pem"; url.RawQuery := EmptyString; url.Fragment := EmptyString |}
       else Err (library_error "parse: invalid URL");
     http_transport := fun _ _ => answer;
     pem_Decode := fun data =>
       match data with
       | [] => None
       | _ :: _ => Some {| pem.Type_ := "CERTIFICATE"; pem.Headers := [];
                           pem.Bytes := data |}
       end;
     x509_ParseCertificate := fun der => Ok der;
     CheckSignature := fun _ _ _ signature =>
       if string_of_list_byte signature =? "sig" then None
       else Some (library_error "crypto/rsa: verification error");
     xml_Unmarshal_Confirm := fun _ response => (response, None);
     xml_Unmarshal_Unsubscribe := fun _ response => (response, None) |}.

(** ** Notions used to state the behaviour of VerifyPayload *)

Section Notions.
Context {C : Collaborators}.

(** Everything [VerifyPayload] checks before its GET has succeeded:
    the signature decodes to [payloadSignature], the certificate URL
    parses to [certURL], its scheme is [https] and its host matches
    [hostPattern]. *)
Definition origin_checks_pass (payload : Payload)
    (payloadSignature : list byte) (certURL : url.URL) : Prop :=
  base64_DecodeString (Signature payload) = Ok payloadSignature /\
  url_Parse (SigningCertURL payload) = Ok certURL /\
  url.Scheme certURL = "https" /\
  regexp.Match hostPattern (bytes_of (url.Host certURL)) = true.

(** In world [w] the GET of the certificate URL gives a response whose
    body reads without error, holds a PEM block, and that block parses
    as the certificate [cert]. *)
Definition certificate_fetched (payload : Payload) (w : World)
    (cert : Certificate) : Prop :=
  exists resp body decodedPem,
    http_transport (requests w) (SigningCertURL payload) = Ok resp /\
    ioutil_ReadAll (http.Body_ resp) = Ok body /\
    pem_Decode body = Some decodedPem /\
    x509_ParseCertificate (pem.Bytes decodedPem) = Ok cert.

(** The part of [VerifyPayload] after [http.Get] has returned [r], as a
    function of [r]. *)
Definition verdict_of_response (payload : Payload)
    (payloadSignature : list byte) (r : result http.Response) : option error :=
  match r with
  | Err err => Some err
  | Ok resp =>
    match ioutil_ReadAll (http.Body_ resp) with
    | Err err => Some err
    | Ok body =>
    match pem_Decode body with
    | None => Some (errors_New "The decoded PEM file was empty!")
    | Some decodedPem =>
    match x509_ParseCertificate (pem.Bytes decodedPem) with
    | Err err => Some err
    | Ok parsedCertificate =>
        CheckSignature parsedCertificate (SignatureAlgorithm payload)
          (BuildSignature payload) payloadSignature
    end end end
  end.

(** The world after one more GET whose response body, if any, has been
    closed again. *)
Definition after_request (w : World) (url : string) : World :=
  {| requests := requests w ++ [url]; open_bodies := open_bodies w |}.
End Notions.

(** The same library calls over a network whose status codes are
    rewritten by [f]. *)
Definition with_status (f : Z -> Z) (C : Collaborators) : Collaborators :=
  {| Certificate := @Certificate C;
     base64_DecodeString := @base64_DecodeString C;
     url_Parse := @url_Parse C;
     http_transport := fun earlier url =>
       match @http_transport C earlier url with
       | Ok resp => Ok {| http.StatusCode := f (http.StatusCode resp);
                          http.Body_ := http.Body_ resp |}
       | Err err => Err err
       end;
     pem_Decode := @pem_Decode C;
     x509_ParseCertificate := @x509_ParseCertificate C;
     CheckSignature := @CheckSignature C;
     xml_Unmarshal_Confirm := @xml_Unmarshal_Confirm C;
     xml_Unmarshal_Unsubscribe := @xml_Unmarshal_Unsubscribe C |}.

(** Following the specification's words: whenever the GET of the
    certificate is answered with a status outside 200..299,
    [VerifyPayload] fails. *)
Definition spec_non_2xx_is_fetch_failure : Prop :=
  forall (C : Collaborators) (p : Payload) (w : World)
         (sig : list byte) (u : url.URL) (resp : http.Response),
    origin_checks_pass p sig u ->
    http_transport (requests w) (SigningCertURL p) = Ok resp ->
    (http.StatusCode resp < 200 \/ 300 <= http.StatusCode resp)%Z ->
    exists e, fst (VerifyPayload p w) = Some e.

(** ** Notions used to state further properties of BuildSignature *)

(** No byte of [s] is a newline. *)
Definition newline_free (s : string) : Prop := ~ In x0a (bytes_of s).

(** None of the eight signable values of [p] holds a newline. *)
Definition newline_free_signable (p : Payload) : Prop :=
  Forall (fun nv => newline_free (snd nv)) (spec_signable_fields p).

(** All eight signable values of [p] are empty. *)
Definition no_signable_field (p : Payload) : Prop :=
  Message p = EmptyString /\ MessageId p = EmptyString /\
  Subject p = EmptyString /\ SubscribeURL p = EmptyString /\
  Timestamp p = EmptyString /\ Token p = EmptyString /\
  TopicArn p = EmptyString /\ Type_ p = EmptyString.

(** [p] with its Message and MessageId replaced. *)
Definition with_Message_MessageId (p : Payload) (message messageId : string)
    : Payload :=
  {| Message := message; MessageId := messageId;
     Signature := Signature p; SignatureVersion := SignatureVersion p;
     SigningCertURL := SigningCertURL p; SubscribeURL := SubscribeURL p;
     Subject := Subject p; Timestamp := Timestamp p; Token := Token p;
     TopicArn := TopicArn p; Type_ := Type_ p;
     UnsubscribeURL := UnsubscribeURL p |}.

(** ** Notions used to state further properties of the network calls *)

(** [p] and [q] agree on every field but UnsubscribeURL. *)
Definition same_but_UnsubscribeURL (p q : Payload) : Prop :=
  Message p = Message q /\ MessageId p = MessageId q /\
  Signature p = Signature q /\ SignatureVersion p = SignatureVersion q /\
  SigningCertURL p = SigningCertURL q /\ SubscribeURL p = SubscribeURL q /\
  Subject p = Subject q /\ Timestamp p = Timestamp q /\
  Token p = Token q /\ TopicArn p = TopicArn q /\ Type_ p = Type_ q.

(** [p] and [q] agree on every field but SignatureVersion. *)
Definition same_but_SignatureVersion (p q : Payload) : Prop :=
  Message p = Message q /\ MessageId p = MessageId q /\
  Signature p = Signature q /\
  SigningCertURL p = SigningCertURL q /\ SubscribeURL p = SubscribeURL q /\
  Subject p = Subject q /\ Timestamp p = Timestamp q /\
  Token p = Token q /\ TopicArn p = TopicArn q /\ Type_ p = Type_ q /\
  UnsubscribeURL p = UnsubscribeURL q.

(** The characters of the hosts that [hostPattern] can match: those of
    the region and the dot. *)
Definition host_chars : list byte :=
  bytes_of "abcdefghijklmnopqrstuvwxyzABCDEFGHIJKLMNOPQRSTUVWXYZ0123456789-.".

(** The number of dots in a host. *)
Definition dots (b : list byte) : nat :=
  List.length (filter (Byte.eqb "."%byte) b).

(** The same library calls with [url.Parse] replaced. *)
Definition with_url_Parse (parse : string -> result url.URL) (C : Collaborators)
    : Collaborators :=
  {| Certificate := @Certificate C;
     base64_DecodeString := @base64_DecodeString C;
     url_Parse := parse;
     http_transport := @http_transport C;
     pem_Decode := @pem_Decode C;
     x509_ParseCertificate := @x509_ParseCertificate C;
     CheckSignature := @CheckSignature C;
     xml_Unmarshal_Confirm := @xml_Unmarshal_Confirm C;
     xml_Unmarshal_Unsubscribe := @xml_Unmarshal_Unsubscribe C |}.

(** ** Further sample inputs *)

(** [sample_notification] with another UnsubscribeURL. *)
Definition sample_redirected : Payload :=
  {| Message := "hello"; MessageId := "id-1"; Signature := "c2ln";
     SignatureVersion := "1";
     SigningCertURL := "https://sns.us-east-1.amazonaws.com/cert.pem";
     SubscribeURL := EmptyString; Subject := EmptyString;
     Timestamp := "2020-01-01T00:00:00Z";
     Token := EmptyString; TopicArn := "arn:aws:sns:us-east-1:1:t";
     Type_ := "Notification"; UnsubscribeURL := "https://evil.example/?u" |}.

(** [sample_notification] without a SignatureVersion. *)
Definition sample_unversioned : Payload :=
  {| Message := "hello"; MessageId := "id-1"; Signature := "c2ln";
     SignatureVersion := EmptyString;
     SigningCertURL := "https://sns.us-east-1.amazonaws.com/cert.pem";
     SubscribeURL := EmptyString; Subject := EmptyString;
     Timestamp := "2020-01-01T00:00:00Z";
     Token := EmptyString; TopicArn := "arn:aws:sns:us-east-1:1:t";
     Type_ := "Notification"; UnsubscribeURL := "https://sns.us-east-1.amazonaws.com/?u" |}.

(** A subscription confirmation, and one with the same SubscribeURL in
    which every other field is made up. *)
Definition sample_confirmation : Payload :=
  {| Message := "You have chosen to subscribe"; MessageId := "id-2";
     Signature := "c2ln"; SignatureVersion := "1";
     SigningCertURL := "https://sns.us-east-1.amazonaws.com/cert.pem";
     SubscribeURL := "https://sns.us-east-1.amazonaws.com/?Action=ConfirmSubscription";
     Subject := EmptyString; Timestamp := "2020-01-01T00:00:00Z";
     Token := "tok"; TopicArn := "arn:aws:sns:us-east-1:1:t";
     Type_ := "SubscriptionConfirmation"; UnsubscribeURL := EmptyString |}.

Definition sample_forged_confirmation : Payload :=
  {| Message := "x"; MessageId := "y"; Signature := "not base64";
     SignatureVersion := "9"; SigningCertURL := "http://evil.example/cert.pem";
     SubscribeURL := "https://sns.us-east-1.amazonaws.com/?Action=ConfirmSubscription";
     Subject := "z"; Timestamp := EmptyString;
     Token := EmptyString; TopicArn := EmptyString;
     Type_ := EmptyString; UnsubscribeURL := EmptyString |}.

(** A certificate URL with a port, as [url.Parse] splits it. *)
Definition url_with_port : url.URL :=
  {| url.Scheme := "https"; url.Opaque := EmptyString;
     url.Host := "sns.us-east-1.amazonaws.com:8443";
     url.Path := "/cert.pem"; url.RawQuery := EmptyString;
     url.Fragment := EmptyString |}.

(** Under the algorithm [algo] signatures are checked on a digest of the
    signed bytes: a signature that validates two byte sequences under one
    certificate validates them through the same digest. *)
Definition signatures_bind_one_digest {C : Collaborators}
    (digest : x509.SignatureAlgorithm -> list byte -> list byte)
    (algo : x509.SignatureAlgorithm) : Prop :=
  forall (cert : Certificate) (signed signed' signature : list byte),
    CheckSignature cert algo signed signature = None ->
    CheckSignature cert algo signed' signature = None ->
    digest algo signed = digest algo signed'.

(** A digest that keeps the length only, as many zero bytes. *)
Definition length_digest (_ : x509.SignatureAlgorithm) (signed : list byte)
    : list byte :=
  repeat x00 (List.length signed).

(** Test doubles in which the signature text decodes to its own bytes
    and a signature validates the byte sequences of its own length. *)
Definition length_fixture : Collaborators :=
  {| Certificate := list byte;
     base64_DecodeString := fun s => Ok (bytes_of s);
     url_Parse := @url_Parse (fixture (Ok (response_with 200 "cert")));
     http_transport := fun _ _ => Ok (response_with 200 "cert");
     pem_Decode := @pem_Decode (fixture (Ok (response_with 200 "cert")));
     x509_ParseCertificate := fun der => Ok der;
     CheckSignature := fun _ _ signed signature =>
       if (List.length signed =? List.length signature)%nat then None
       else Some (library_error "crypto/rsa: verification error");
     xml_Unmarshal_Confirm := fun _ response => (response, None);
     xml_Unmarshal_Unsubscribe := fun _ response => (response, None) |}.

(** A notification that [length_fixture] accepts, and one with another
    Message of the same length under the same signature. *)
Definition sample_signed : Payload :=
  {| Message := "hello"; MessageId := EmptyString;
     Signature := "Message" ++ LF ++ "hello" ++ LF;
     SignatureVersion := "1";
     SigningCertURL := "https://sns.us-east-1.amazonaws.com/cert.pem";
     SubscribeURL := EmptyString; Subject := EmptyString;
     Timestamp := EmptyString; Token := EmptyString; TopicArn := EmptyString;
     Type_ := EmptyString; UnsubscribeURL := EmptyString |}.

Definition sample_signed_altered : Payload :=
  {| Message := "jello"; MessageId := EmptyString;
     Signature := "Message" ++ LF ++ "hello" ++ LF;
     SignatureVersion := "1";
     SigningCertURL := "https://sns.us-east-1.amazonaws.com/cert.pem";
     SubscribeURL := EmptyString; Subject := EmptyString;
     Timestamp := EmptyString; Token := EmptyString; TopicArn := EmptyString;
     Type_ := EmptyString; UnsubscribeURL := EmptyString |}.

(** ** JsonDateTime *)

Module strings.
(** [trimLeftByte(s, c)]: [s] without its leading bytes [c]. *)
Fixpoint trimLeftByte (s : string) (c : ascii) : string :=
  match s with
  | String x s' => if Ascii.eqb x c then trimLeftByte s' c else s
  | EmptyString => s
  end.

(** [trimRightByte(s, c)]: [s] without its trailing bytes [c]. *)
Fixpoint trimRightByte (s : string) (c : ascii) : string :=
  match s with
  | EmptyString => EmptyString
  | String x s' =>
      match trimRightByte s' c with
      | EmptyString => if Ascii.eqb x c then EmptyString else String x EmptyString
      | String y r => String x (String y r)
      end
  end.

(** [strings.Trim(s, cutset)] for a cutset of the one ASCII byte [c]. *)
Definition Trim (s : string) (c : ascii) : string :=
  trimLeftByte (trimRightByte s c) c.
End strings.

(** The functions of [time] and [encoding/json] that [JsonDateTime]
    calls are parameters of the model. *)
Class TimeLibrary := {
  (** [time.Time] *)
  Time : Type;
  (** [time.Parse(layout, value)] *)
  time_Parse : string -> string -> result Time;
  (** [json.Marshal(t)] for a [time.Time] *)
  json_Marshal_Time : Time -> result (list byte)
}.

(** [time.RFC3339] *)
Definition time_RFC3339 : string := "2006-01-02T15:04:05Z07:00".

(** The double quote. *)
Definition quote : ascii := "034"%char.

(** [type JsonDateTime time.Time] *)
Definition JsonDateTime {T : TimeLibrary} : Type := Time.

(** [func (j *JsonDateTime) UnmarshalJSON(b []byte) error]: the value of
    [*j] after the call, and the error. *)
Definition UnmarshalJSON {T : TimeLibrary} (j : JsonDateTime) (b : list byte)
    : JsonDateTime * option error :=
  let s := strings.Trim (string_of_list_byte b) quote in
  match time_Parse time_RFC3339 s with
  | Err err => (j, Some err)
  | Ok t => (t, None)
  end.

(** [func (j JsonDateTime) MarshalJSON() ([]byte, error)] *)
Definition MarshalJSON {T : TimeLibrary} (j : JsonDateTime) : result (list byte) :=
  json_Marshal_Time j.

(** The string of [n] bytes [c]. *)
Fixpoint repeat_char (c : ascii) (n : nat) : string :=
  match n with
  | 0 => EmptyString
  | S n' => String c (repeat_char c n')
  end.

(** [s] starts, respectively ends, with the byte [c]. *)
Definition starts_with (c : ascii) (s : string) : Prop :=
  exists t, s = String c t.

Definition ends_with (c : ascii) (s : string) : Prop :=
  exists t, s = (t ++ String c EmptyString)%string.

(** A test double for the time library: a time is its text; the texts of
    twenty bytes parse. *)
Definition time_fixture : TimeLibrary :=
  {| Time := string;
     time_Parse := fun _ value =>
       if (String.length value =? 20)%nat then Ok value
       else Err (library_error "parsing time: cannot parse");
     json_Marshal_Time := fun t =>
       Ok (bytes_of (String quote t ++ String quote EmptyString)) |}.

(** ** BuildSignature as a call on a pointer

    [BuildSignature] has the receiver [payload *Payload]: a call gets the
    address of a payload in memory and runs in a world. Each round of its
    loop dereferences the pointer anew, by
    [reflect.Indirect(reflect.ValueOf(payload))]. *)

(** The payloads in memory, by address; [None] where there is none, as
    at the nil pointer. *)
Definition Heap : Type := nat -> option Payload.

(** The memory and the world a call runs in. *)
Record Machine := mkMachine {
  heap  : Heap;
  world : World
}.

(** How a call ends: it returns a value and leaves a machine, or it
    panics. *)
Inductive outcome (A : Type) :=
| Returns (a : A) (m : Machine)
| Panics.
Arguments Returns {A} a m.
Arguments Panics {A}.

(** The loop [for _, key := range keys] of [BuildSignature] on the
    pointer [payload]. [FieldByName] on the zero Value that [Indirect]
    gives for a pointer to nothing panics. *)
Fixpoint BuildSignature_range (payload : nat) (keys : list string)
    (builtSignature : Buffer.t) (m : Machine) : outcome Buffer.t :=
  match keys with
  | [] => Returns builtSignature m
  | key :: keys' =>
      match heap m payload with
      | None => Panics
      | Some p =>
          BuildSignature_range payload keys'
            (BuildSignature_step p builtSignature key) m
      end
  end.

(** The call [payload.BuildSignature()] on the pointer [payload]. *)
Definition BuildSignature_call (payload : nat) (m : Machine)
    : outcome (list byte) :=
  match BuildSignature_range payload signableKeys Buffer.zero m with
  | Returns builtSignature m' => Returns (Buffer.Bytes builtSignature) m'
  | Panics => Panics
  end.

(** Two machines: one holds [sample_notification] at address 0 in the
    world before any call; the other holds a payload with the same field
    values at address 7, another payload at address 0, and has seen a
    request. *)
Definition sample_machine : Machine :=
  {| heap := fun a => if (a =? 0)%nat then Some sample_notification else None;
     world := initial_world |}.

Definition sample_machine_later : Machine :=
  {| heap := fun a =>
       if (a =? 7)%nat then
         Some {| Message := "hello"; MessageId := "id-1"; Signature := "c2ln";
                 SignatureVersion := "1";
                 SigningCertURL := "https://sns.us-east-1.amazonaws.com/cert.pem";
                 SubscribeURL := EmptyString; Subject := EmptyString;
                 Timestamp := "2020-01-01T00:00:00Z";
                 Token := EmptyString; TopicArn := "arn:aws:sns:us-east-1:1:t";
                 Type_ := "Notification";
                 UnsubscribeURL := "https://sns.us-east-1.amazonaws.com/?u" |}
       else if (a =? 0)%nat then Some sample_tampered
       else None;
     world := {| requests := ["https://sns.us-east-1.amazonaws.com/cert.pem"];
                 open_bodies := 0 |} |}.

(** A notification whose Subject and Type hold newlines. *)
Definition multiline_subject : Payload :=
  {| Message := "m"; MessageId := EmptyString; Signature := EmptyString;
     SignatureVersion := EmptyString; SigningCertURL := EmptyString;
     SubscribeURL := EmptyString; Subject := "a" ++ LF ++ "b";
     Timestamp := EmptyString; Token := EmptyString; TopicArn := EmptyString;
     Type_ := "x" ++ LF ++ LF ++ "y"; UnsubscribeURL := EmptyString |}.

(** ** Facts about strings and bytes *)

Lemma bytes_of_app (s t : string) :
  bytes_of (s ++ t) = bytes_of s ++ bytes_of t.
Proof.
  unfold bytes_of, list_byte_of_string.
  induction s as [|c s IH]; simpl; [reflexivity|].
  now rewrite IH.
Qed.

Lemma bytes_of_LF : bytes_of LF = [x0a].
Proof. reflexivity. Qed.

Lemma eqb_empty (s : string) :
  (s =? EmptyString) = match s with EmptyString => true | String _ _ => false end.
Proof. now destruct s. Qed.

(** What one loop iteration appends for a key that names a field. *)
Lemma BuildSignature_step_field (p : Payload) (b : Buffer.t) (k v : string) :
  reflect.FieldByName p k = reflect.StringValue v ->
  BuildSignature_step p b k = b ++ spec_entry (k, v).
Proof.
  intros Hf. unfold BuildSignature_step, spec_entry. rewrite Hf.
  cbn [reflect.IsValid reflect.String_ andb fst snd].
  rewrite eqb_empty. destruct v as [|c v]; cbn [negb].
  - now rewrite app_nil_r.
  - unfold Buffer.WriteString. rewrite !bytes_of_app, bytes_of_LF.
    now rewrite <- !app_assoc.
Qed.

Lemma BuildSignature_loop_app (p : Payload) (ks1 ks2 : list string) (b : Buffer.t) :
  BuildSignature_loop p (ks1 ++ ks2) b =
  BuildSignature_loop p ks2 (BuildSignature_loop p ks1 b).
Proof. apply fold_left_app. Qed.

(** The loop only ever appends to the buffer it is given. *)
Lemma BuildSignature_loop_prefix (p : Payload) (ks : list string) (b : Buffer.t) :
  BuildSignature_loop p ks b = b ++ BuildSignature_loop p ks Buffer.zero.
Proof.
  revert b. induction ks as [|k ks IH]; intros b; simpl.
  - now rewrite app_nil_r.
  - rewrite IH. rewrite (IH (BuildSignature_step _ _ k)).
    rewrite app_assoc. f_equal.
    unfold BuildSignature_step.
    destruct (_ && _); [|now rewrite app_nil_r].
    unfold Buffer.WriteString, Buffer.zero. simpl. now rewrite app_assoc.
Qed.

(** The output of [BuildSignature] written out key by key. *)
Lemma BuildSignature_entries (p : Payload) :
  BuildSignature p =
  spec_entry ("Message", Message p) ++ spec_entry ("MessageId", MessageId p) ++
  spec_entry ("Subject", Subject p) ++ spec_entry ("SubscribeURL", SubscribeURL p) ++
  spec_entry ("Timestamp", Timestamp p) ++ spec_entry ("Token", Token p) ++
  spec_entry ("TopicArn", TopicArn p) ++ spec_entry ("Type", Type_ p).
Proof.
  unfold BuildSignature, Buffer.Bytes, BuildSignature_loop, signableKeys.
  cbn [fold_left].
  repeat (erewrite BuildSignature_step_field by reflexivity).
  unfold Buffer.zero. cbn [app].
  rewrite <- !app_assoc. reflexivity.
Qed.

(** The output around the entry of any one key of the loop. *)
Lemma BuildSignature_split (p : Payload) (ks1 ks2 : list string) (k v : string) :
  signableKeys = ks1 ++ k :: ks2 ->
  reflect.FieldByName p k = reflect.StringValue v ->
  BuildSignature p =
  BuildSignature_loop p ks1 Buffer.zero ++ spec_entry (k, v) ++
  BuildSignature_loop p ks2 Buffer.zero.
Proof.
  intros Hk Hf. unfold BuildSignature, Buffer.Bytes. rewrite Hk.
  rewrite BuildSignature_loop_app.
  change (BuildSignature_loop p (k :: ks2) ?b)
    with (BuildSignature_loop p ks2 (BuildSignature_step p b k)).
  rewrite (BuildSignature_step_field _ _ _ _ Hf).
  rewrite BuildSignature_loop_prefix. now rewrite <- app_assoc.
Qed.

(** *** The matcher computes [Matches] *)

Lemma Matches_suffix r i s i' s' :
  Matches r i s i' s' -> exists m, s = m ++ s' /\ i' = i + List.length m.
Proof.
  induction 1.
  all: try (exists []; split; [reflexivity | cbn; lia]).
  - exists [c]. split; [reflexivity | cbn; lia].
  - exists [c]. split; [reflexivity | cbn; lia].
  - destruct IHMatches1 as (m1 & -> & ->), IHMatches2 as (m2 & -> & ->).
    exists (m1 ++ m2). rewrite app_assoc, length_app. split; [reflexivity | lia].
  - destruct IHMatches1 as (m1 & -> & ->), IHMatches2 as (m2 & -> & ->).
    exists (m1 ++ m2). rewrite app_assoc, length_app. split; [reflexivity | lia].
  - exact IHMatches.
  - exact IHMatches.
Qed.

Section Iteration.
Variable r : Regexp.
Variable step : nat -> list byte -> cont -> bool.
Hypothesis step_spec : forall i s k,
  step i s k = true <-> exists i' s', Matches r i s i' s' /\ k i' s' = true.

Lemma star_sound fuel : forall i s k,
  star step fuel i s k = true ->
  exists i' s', Matches (Repeat 0 r) i s i' s' /\ k i' s' = true.
Proof.
  induction fuel as [|fuel IH]; intros i s k H; cbn in H;
    apply orb_true_iff in H; destruct H as [H|H].
  - exists i, s. split; [constructor | exact H].
  - discriminate.
  - exists i, s. split; [constructor | exact H].
  - apply step_spec in H. destruct H as (i1 & s1 & Hm & H).
    apply andb_true_iff in H. destruct H as [_ H].
    destruct (IH _ _ _ H) as (i' & s' & Hm' & Hk).
    exists i', s'. split; [|exact Hk].
    eapply M_Repeat_iter; eassumption.
Qed.

Lemma star_complete i s i' s' (k : cont) :
  Matches (Repeat 0 r) i s i' s' -> k i' s' = true ->
  forall fuel, List.length s <= fuel -> star step fuel i s k = true.
Proof.
  intros Hm Hk. remember (Repeat 0 r) as r0 eqn:E.
  induction Hm; try discriminate E.
  - intros fuel _. destruct fuel; cbn; now rewrite Hk.
  - injection E as -> ->. cbn [pred] in *.
    specialize (IHHm2 eq_refl Hk). clear IHHm1.
    intros fuel Hfuel.
    destruct (Matches_suffix _ _ _ _ _ Hm1) as (m & -> & ->).
    destruct m as [|c m].
    + cbn in *. replace (i + 0) with i in IHHm2 by lia. now apply IHHm2.
    + cbn [app List.length] in Hfuel.
      destruct fuel as [|fuel]; [lia|].
      cbn [star]. apply orb_true_iff. right.
      apply step_spec. eexists _, _. split; [exact Hm1|].
      apply andb_true_iff. split.
      * apply Nat.ltb_lt. cbn. rewrite length_app. lia.
      * apply IHHm2. rewrite length_app in Hfuel. lia.
Qed.

Lemma times_spec n : forall i s k,
  times step n i s (fun i' s' => star step (List.length s') i' s' k) = true <->
  exists i' s', Matches (Repeat n r) i s i' s' /\ k i' s' = true.
Proof.
  induction n as [|n IH]; intros i s k; cbn [times].
  - split.
    + apply star_sound.
    + intros (i' & s' & Hm & Hk). eapply star_complete; eauto.
  - rewrite step_spec. split.
    + intros (i1 & s1 & Hm1 & H). apply IH in H.
      destruct H as (i' & s' & Hm & Hk). exists i', s'. split; [|exact Hk].
      eapply M_Repeat_iter; eassumption.
    + intros (i' & s' & Hm & Hk). inversion Hm; subst.
      eexists _, _. split; [eassumption|]. apply IH. eauto.
Qed.
End Iteration.

Lemma run_spec r : forall i s k,
  run r i s k = true <-> exists i' s', Matches r i s i' s' /\ k i' s' = true.
Proof.
  induction r as [| | |c|ranges|r1 IH1 r2 IH2|min r IH|r IH|r IH];
    intros i s k; cbn [run].
  - split; [intros H; exists i, s; split; [constructor|exact H]|].
    intros (i' & s' & Hm & Hk). inversion Hm; subst. exact Hk.
  - split.
    + intros H. apply andb_true_iff in H. destruct H as [H Hk].
      apply Nat.eqb_eq in H. subst. exists 0, s. split; [constructor|exact Hk].
    + intros (i' & s' & Hm & Hk). inversion Hm; subst. exact Hk.
  - split.
    + destruct s; [|discriminate]. intros Hk. exists i, []. split; [constructor|exact Hk].
    + intros (i' & s' & Hm & Hk). inversion Hm; subst. exact Hk.
  - split.
    + destruct s as [|x s]; [discriminate|]. intros H.
      apply andb_true_iff in H. destruct H as [H Hk].
      apply Byte.byte_dec_bl in H. subst. exists (S i), s. split; [constructor|exact Hk].
    + intros (i' & s' & Hm & Hk). inversion Hm; subst.
      rewrite (Byte.byte_dec_lb eq_refl). exact Hk.
  - split.
    + destruct s as [|x s]; [discriminate|]. intros H.
      apply andb_true_iff in H. destruct H as [H Hk].
      exists (S i), s. split; [now constructor|exact Hk].
    + intros (i' & s' & Hm & Hk). inversion Hm; subst.
      apply andb_true_iff. now split.
  - rewrite IH1. split.
    + intros (i1 & s1 & Hm1 & H). apply IH2 in H.
      destruct H as (i' & s' & Hm2 & Hk). exists i', s'. split; [|exact Hk].
      econstructor; eassumption.
    + intros (i' & s' & Hm & Hk). inversion Hm; subst.
      eexists _, _. split; [eassumption|]. apply IH2. eauto.
  - apply times_spec. exact IH.
  - rewrite orb_true_iff, IH. split.
    + intros [(i' & s' & Hm & Hk)|Hk].
      * exists i', s'. split; [now constructor|exact Hk].
      * exists i, s. split; [apply M_Quest_none|exact Hk].
    + intros (i' & s' & Hm & Hk). inversion Hm; subst; [left; eauto | right; exact Hk].
  - rewrite IH. split.
    + intros (i' & s' & Hm & Hk). exists i', s'. split; [now constructor|exact Hk].
    + intros (i' & s' & Hm & Hk). inversion Hm; subst; eauto.
Qed.

Lemma search_spec re : forall s i,
  search re i s = true <->
  exists pre s0 i' s', s = pre ++ s0 /\ Matches re (i + List.length pre) s0 i' s'.
Proof.
  induction s as [|x s IH]; intros i; cbn [search]; rewrite orb_true_iff, run_spec.
  - split.
    + intros [(i' & s' & Hm & _)|H]; [|discriminate].
      exists [], [], i', s'. cbn. now rewrite Nat.add_0_r.
    + intros (pre & s0 & i' & s' & E & Hm).
      symmetry in E. apply app_eq_nil in E. destruct E as [-> ->].
      cbn in Hm. rewrite Nat.add_0_r in Hm. left. eauto.
  - rewrite IH. split.
    + intros [(i' & s' & Hm & _)|(pre & s0 & i' & s' & -> & Hm)].
      * exists [], (x :: s), i', s'. cbn. now rewrite Nat.add_0_r.
      * exists (x :: pre), s0, i', s'. cbn.
        now rewrite Nat.add_succ_r.
    + intros (pre & s0 & i' & s' & E & Hm). destruct pre as [|y pre].
      * cbn in E, Hm. subst s0. rewrite Nat.add_0_r in Hm. left. eauto.
      * cbn in E. injection E as -> ->. right.
        exists pre, s0, i', s'. split; [reflexivity|].
        cbn in Hm. now rewrite Nat.add_succ_r in Hm.
Qed.

Lemma Match_spec re b :
  Match re b = true <->
  exists pre s0 i' s', b = pre ++ s0 /\ Matches re (List.length pre) s0 i' s'.
Proof. unfold Match. now rewrite search_spec. Qed.

(** *** Matches of the shapes that occur in [hostPattern] *)

Lemma Matches_Concat r1 r2 i s i' s' :
  Matches (Concat r1 r2) i s i' s' <->
  exists i1 s1, Matches r1 i s i1 s1 /\ Matches r2 i1 s1 i' s'.
Proof.
  split.
  - intros H. inversion H; subst. eauto.
  - intros (i1 & s1 & H1 & H2). econstructor; eassumption.
Qed.

Lemma Matches_Quest r i s i' s' :
  Matches (Quest r) i s i' s' <-> Matches r i s i' s' \/ (i' = i /\ s' = s).
Proof.
  split.
  - intros H. inversion H; subst; auto.
  - intros [H | [-> ->]]; [now apply M_Quest_some | apply M_Quest_none].
Qed.

Lemma Matches_Capture r i s i' s' :
  Matches (Capture r) i s i' s' <-> Matches r i s i' s'.
Proof.
  split.
  - intros H. now inversion H; subst.
  - apply M_Capture.
Qed.

Lemma Matches_Literals l : forall i s i' s',
  Matches (Literals l) i s i' s' <-> s = l ++ s' /\ i' = i + List.length l.
Proof.
  induction l as [|c l IH]; intros i s i' s'; cbn [Literals].
  - split.
    + intros H. inversion H; subst. cbn. split; [reflexivity | lia].
    + intros [-> ->]. cbn. rewrite Nat.add_0_r. constructor.
  - rewrite Matches_Concat. split.
    + intros (i1 & s1 & H1 & H2). inversion H1; subst.
      apply IH in H2. destruct H2 as [-> ->]. cbn. split; [reflexivity | lia].
    + intros [-> ->]. exists (S i), (l ++ s'). split; [constructor|].
      apply IH. cbn. split; [reflexivity | lia].
Qed.

Lemma Matches_Repeat_CharClass ranges n i s i' s' :
  Matches (Repeat n (CharClass ranges)) i s i' s' <->
  exists m, s = m ++ s' /\ i' = i + List.length m /\ n <= List.length m /\
            forallb (fun c => existsb (in_range c) ranges) m = true.
Proof.
  split.
  - intros H. remember (Repeat n (CharClass ranges)) as r eqn:E.
    revert n E. induction H; intros n E; try discriminate E.
    + injection E as <- ->. exists []. cbn. repeat split; lia.
    + injection E as -> ->. clear IHMatches1.
      destruct (IHMatches2 _ eq_refl) as (m & -> & -> & Hn & Hall).
      inversion H; subst. exists (c :: m). cbn.
      match goal with Hc : existsb _ _ = true |- _ => rewrite Hc end.
      rewrite Hall.
      repeat split; lia.
  - intros (m & -> & -> & Hn & Hall). revert n i Hn.
    induction m as [|c m IH]; intros n i Hn.
    + cbn in *. replace n with 0 by lia. rewrite Nat.add_0_r. constructor.
    + cbn in Hall. apply andb_true_iff in Hall. destruct Hall as [Hc Hall].
      apply M_Repeat_iter with (i1 := S i) (s1 := m ++ s').
      * now constructor.
      * replace (i + List.length (c :: m)) with (S i + List.length m) by (cbn; lia).
        apply IH; [exact Hall | cbn in Hn; lia].
Qed.

Lemma In_byte_existsb (c : byte) (l : list byte) :
  In c l <-> existsb (Byte.eqb c) l = true.
Proof.
  rewrite existsb_exists. split.
  - intros H. exists c. split; [exact H | now apply Byte.byte_dec_lb].
  - intros (x & H & E). apply Byte.byte_dec_bl in E. now subst.
Qed.

Lemma hostPattern_class_chars (c : byte) :
  existsb (in_range c) hostPattern_class = true <-> In c spec_region_chars.
Proof.
  rewrite In_byte_existsb.
  assert (E : existsb (in_range c) hostPattern_class =
              existsb (Byte.eqb c) spec_region_chars)
    by (destruct c; vm_compute; reflexivity).
  now rewrite E.
Qed.

Lemma hostPattern_class_all (m : list byte) :
  forallb (fun c => existsb (in_range c) hostPattern_class) m = true <->
  (forall c, In c m -> In c spec_region_chars).
Proof.
  rewrite forallb_forall. split; intros H c Hc.
  - apply hostPattern_class_chars. now apply H.
  - apply hostPattern_class_chars. now apply H.
Qed.

Lemma hostPattern_Matches j s0 i' s' :
  Matches hostPattern j s0 i' s' <->
  j = 0 /\ s' = [] /\ i' = List.length s0 /\ spec_trusted_host s0.
Proof.
  unfold hostPattern. split.
  - intros H.
    apply Matches_Concat in H. destruct H as (i0 & t0 & Hb & H).
    inversion Hb; subst. clear Hb.
    apply Matches_Concat in H. destruct H as (i1 & s1 & Hsns & H).
    apply Matches_Literals in Hsns. destruct Hsns as [-> ->].
    apply Matches_Concat in H. destruct H as (i2 & s2 & Hreg & H).
    apply Matches_Repeat_CharClass in Hreg.
    destruct Hreg as (region & -> & -> & Hlen & Hall).
    apply Matches_Concat in H. destruct H as (i3 & s3 & Haws & H).
    apply Matches_Literals in Haws. destruct Haws as [-> ->].
    apply Matches_Concat in H. destruct H as (i4 & s4 & Hcn & He).
    inversion He; subst. clear He.
    assert (Htail : (s3 = [] \/ s3 = bytes_of ".cn") /\
                    i' = 0 + List.length (bytes_of "sns.") + List.length region +
                         List.length (bytes_of ".amazonaws.com") + List.length s3).
    { apply Matches_Quest in Hcn. destruct Hcn as [Hcn | [Hi Hs]].
      - apply Matches_Capture, Matches_Literals in Hcn.
        destruct Hcn as [-> ->]. split; [now right | reflexivity].
      - subst i' s3. split; [now left | cbn; lia]. }
    destruct Htail as [Htail ->].
    repeat split.
    + rewrite !length_app. lia.
    + exists region, s3. repeat split; try assumption.
      now apply hostPattern_class_all.
  - intros (-> & -> & -> & region & tail & -> & Hlen & Hall & Htail).
    apply Matches_Concat. exists 0, (bytes_of "sns." ++ region ++ bytes_of ".amazonaws.com" ++ tail).
    split; [constructor|].
    apply Matches_Concat. eexists _, _. split.
    { apply Matches_Literals. split; reflexivity. }
    apply Matches_Concat. eexists _, _. split.
    { apply Matches_Repeat_CharClass. exists region.
      split; [reflexivity|]. split; [reflexivity|]. split; [exact Hlen|].
      now apply hostPattern_class_all. }
    apply Matches_Concat. eexists _, _. split.
    { apply Matches_Literals. split; reflexivity. }
    apply Matches_Concat. exists (List.length (bytes_of "sns." ++ region ++ bytes_of ".amazonaws.com" ++ tail)), [].
    split; [|constructor].
    destruct Htail as [-> | ->].
    + rewrite !length_app. cbn [List.length bytes_of list_byte_of_string map list_ascii_of_string].
      replace (0 + 4 + List.length region + 14) with (4 + (List.length region + (14 + 0))) by lia.
      apply M_Quest_none.
    + apply M_Quest_some, M_Capture, Matches_Literals.
      split; [now rewrite app_nil_r|].
      rewrite !length_app. cbn. lia.
Qed.

Lemma hostPattern_Match_iff (b : list byte) :
  Match hostPattern b = true <-> spec_trusted_host b.
Proof.
  rewrite Match_spec. split.
  - intros (pre & s0 & i' & s' & -> & H).
    apply hostPattern_Matches in H. destruct H as (Hpre & _ & _ & H).
    destruct pre; [exact H | discriminate Hpre].
  - intros H. exists [], b, (List.length b), [].
    split; [reflexivity|]. apply hostPattern_Matches. auto.
Qed.

(** ** Facts about VerifyPayload *)

Section VerifyPayloadFacts.
Context {C : Collaborators}.
Variable p : Payload.
Variable w : World.

Lemma VerifyPayload_bad_signature err :
  base64_DecodeString (Signature p) = Err err ->
  VerifyPayload p w = (Some err, w).
Proof. intros H. unfold VerifyPayload. now rewrite H. Qed.

Lemma VerifyPayload_bad_url sig err :
  base64_DecodeString (Signature p) = Ok sig ->
  url_Parse (SigningCertURL p) = Err err ->
  VerifyPayload p w = (Some err, w).
Proof. intros H1 H2. unfold VerifyPayload. now rewrite H1, H2. Qed.

Lemma VerifyPayload_bad_scheme sig u :
  base64_DecodeString (Signature p) = Ok sig ->
  url_Parse (SigningCertURL p) = Ok u ->
  url.Scheme u <> "https" ->
  VerifyPayload p w = (Some (errorString "url should be using https"), w).
Proof.
  intros H1 H2 H3. unfold VerifyPayload. rewrite H1, H2.
  apply String.eqb_neq in H3. now rewrite H3.
Qed.

Lemma VerifyPayload_bad_host sig u :
  base64_DecodeString (Signature p) = Ok sig ->
  url_Parse (SigningCertURL p) = Ok u ->
  url.Scheme u = "https" ->
  regexp.Match hostPattern (bytes_of (url.Host u)) = false ->
  VerifyPayload p w =
  (Some (errorString "certificate is located on an invalid domain"), w).
Proof.
  intros H1 H2 H3 H4. unfold VerifyPayload. rewrite H1, H2, H3, H4.
  reflexivity.
Qed.

Lemma VerifyPayload_fetch sig u :
  origin_checks_pass p sig u ->
  VerifyPayload p w =
  (verdict_of_response p sig (http_transport (requests w) (SigningCertURL p)),
   after_request w (SigningCertURL p)).
Proof.
  intros (H1 & H2 & H3 & H4). unfold VerifyPayload. rewrite H1, H2, H3, H4.
  cbn [String.eqb Ascii.eqb Bool.eqb negb].
  unfold bind, http_Get, verdict_of_response, after_request.
  destruct (http_transport (requests w) (SigningCertURL p)) as [resp | err];
    [|reflexivity].
  unfold defer, bind, Body_Close, ret.
  destruct (ioutil_ReadAll (http.Body_ resp)) as [body | err]; [|reflexivity].
  destruct (pem_Decode body) as [decodedPem |]; [|reflexivity].
  destruct (x509_ParseCertificate (pem.Bytes decodedPem)); reflexivity.
Qed.

(** The four checks either pass or name the error that ends the call
    at once, in the world as it was. *)
Lemma VerifyPayload_checks :
  (exists sig u, origin_checks_pass p sig u) \/
  (exists err, VerifyPayload p w = (Some err, w) /\
     forall sig u, ~ origin_checks_pass p sig u).
Proof.
  destruct (base64_DecodeString (Signature p)) as [sig | err] eqn:H1.
  2:{ right. exists err. split; [now apply VerifyPayload_bad_signature|].
      intros sig u (H & _). congruence. }
  destruct (url_Parse (SigningCertURL p)) as [u | err] eqn:H2.
  2:{ right. exists err. split; [now apply VerifyPayload_bad_url with sig|].
      intros sig' u (_ & H & _). congruence. }
  destruct (String.eqb_spec (url.Scheme u) "https") as [H3 | H3].
  2:{ right. eexists. split; [now apply VerifyPayload_bad_scheme with sig u|].
      intros sig' u' (_ & H & H' & _). congruence. }
  destruct (regexp.Match hostPattern (bytes_of (url.Host u))) eqn:H4.
  2:{ right. eexists. split; [now apply VerifyPayload_bad_host with sig u|].
      intros sig' u' (_ & H & _ & H'). congruence. }
  left. exists sig, u. now repeat split.
Qed.
End VerifyPayloadFacts.

(** ** Further facts about the canonical bytes *)

Lemma bytes_of_inj (s t : string) : bytes_of s = bytes_of t -> s = t.
Proof.
  unfold bytes_of. intros H.
  apply (f_equal string_of_list_byte) in H.
  now rewrite !string_of_list_byte_of_string in H.
Qed.

(** [BuildSignature] over the list of (name, value) pairs. *)
Lemma BuildSignature_concat (p : Payload) :
  BuildSignature p = concat (map spec_entry (spec_signable_fields p)).
Proof.
  rewrite BuildSignature_entries. unfold spec_signable_fields.
  cbn [map concat]. now rewrite app_nil_r.
Qed.

Lemma spec_entry_nil (k v : string) :
  spec_entry (k, v) = [] <-> v = EmptyString.
Proof.
  unfold spec_entry. cbn [fst snd]. destruct v as [|c v].
  - tauto.
  - split; [|discriminate]. intros H.
    apply app_eq_nil in H. destruct H as [_ H]. discriminate H.
Qed.

Lemma spec_entry_cons (k : string) (c : ascii) (v : string) :
  spec_entry (k, String c v) =
  bytes_of k ++ x0a :: bytes_of (String c v) ++ [x0a].
Proof. reflexivity. Qed.

(** Two texts that start with a line without newline agree on that line
    and on what follows it. *)
Lemma first_line_inj (a b x y : list byte) :
  ~ In x0a a -> ~ In x0a b ->
  a ++ x0a :: x = b ++ x0a :: y -> a = b /\ x = y.
Proof.
  revert b. induction a as [|c a IH]; intros [|d b] Ha Hb E; cbn in E.
  - injection E as E. now split.
  - injection E as E _. elim Hb. left. now symmetry.
  - injection E as E _. elim Ha. now left.
  - injection E as E1 E2.
    destruct (IH b) as [-> ->]; [| |exact E2|now subst].
    + intros H. apply Ha. now right.
    + intros H. apply Hb. now right.
Qed.

(** The bytes of a list of entries are empty or start with the line of
    one of its names. *)
Lemma entries_first_line (kvs : list (string * string)) :
  concat (map spec_entry kvs) = [] \/
  exists k rest, In k (map fst kvs) /\
    concat (map spec_entry kvs) = bytes_of k ++ x0a :: rest.
Proof.
  induction kvs as [|[k v] kvs IH]; [now left|].
  cbn [map concat fst]. destruct v as [|c v].
  - change (spec_entry (k, EmptyString)) with (@nil byte). cbn [app].
    destruct IH as [IH | (k' & rest & Hin & IH)]; [now left|].
    right. exists k', rest. split; [now right | exact IH].
  - right. exists k. eexists. split; [now left|].
    rewrite spec_entry_cons, <- app_assoc. reflexivity.
Qed.

(** Entry lists over the same distinct newline-free names, with
    newline-free values, that give the same bytes are equal. *)
Lemma entries_inj : forall kvs kvs' : list (string * string),
  map fst kvs = map fst kvs' ->
  NoDup (map fst kvs) ->
  Forall (fun nv => newline_free (fst nv)) kvs ->
  Forall (fun nv => newline_free (snd nv)) kvs ->
  Forall (fun nv => newline_free (snd nv)) kvs' ->
  concat (map spec_entry kvs) = concat (map spec_entry kvs') ->
  kvs = kvs'.
Proof.
  induction kvs as [|[k v] kvs IH]; intros [|[k' v'] kvs'] Hk Hnd Hkf Hv Hv' E;
    try discriminate Hk; [reflexivity|].
  cbn [map fst] in Hk, Hnd. injection Hk as <- Hk.
  apply NoDup_cons_iff in Hnd. destruct Hnd as [Hnotin Hnd].
  apply Forall_cons_iff in Hkf. destruct Hkf as [Hkfree Hkf].
  apply Forall_cons_iff in Hv. destruct Hv as [Hvfree Hv].
  apply Forall_cons_iff in Hv'. destruct Hv' as [Hvfree' Hv'].
  cbn [fst snd] in Hkfree, Hvfree, Hvfree'.
  cbn [map concat] in E.
  assert (Hclash : forall c w R R',
    R = bytes_of k ++ x0a :: bytes_of (String c w) ++ x0a :: R' ->
    (R = [] \/ exists k2 rest, In k2 (map fst kvs) /\ R = bytes_of k2 ++ x0a :: rest) ->
    (forall k2, In k2 (map fst kvs) -> newline_free k2) -> False).
  { intros c w R R' HR [HR0 | (k2 & rest & Hin & HR2)] Hfree.
    - rewrite HR0 in HR. symmetry in HR.
      apply app_eq_nil in HR. destruct HR as [_ HR]. discriminate HR.
    - rewrite HR2 in HR.
      apply first_line_inj in HR; [|exact (Hfree k2 Hin)|exact Hkfree].
      destruct HR as [HR _]. apply bytes_of_inj in HR. subst k2. now apply Hnotin. }
  assert (Hfree : forall k2, In k2 (map fst kvs) -> newline_free k2).
  { intros k2 Hin. apply in_map_iff in Hin. destruct Hin as ([k3 v3] & <- & Hin).
    rewrite Forall_forall in Hkf. exact (Hkf _ Hin). }
  destruct v as [|c v], v' as [|c' v'];
    try change (spec_entry (k, EmptyString)) with (@nil byte) in E;
    rewrite ?spec_entry_cons in E;
    repeat (rewrite <- app_assoc in E; cbn [app] in E); cbn [app] in E.
  - f_equal. now apply IH.
  - exfalso.
    apply (Hclash c' v' (concat (map spec_entry kvs)) (concat (map spec_entry kvs'))).
    + exact E.
    + apply entries_first_line.
    + exact Hfree.
  - exfalso.
    apply (Hclash c v (concat (map spec_entry kvs')) (concat (map spec_entry kvs))).
    + now symmetry.
    + rewrite Hk. apply entries_first_line.
    + exact Hfree.
  - apply app_inv_head in E. apply (f_equal (@tl byte)) in E. cbn [tl] in E.
    apply first_line_inj in E; [|exact Hvfree|exact Hvfree'].
    destruct E as [Ev E]. apply bytes_of_inj in Ev. rewrite Ev.
    f_equal. now apply IH.
Qed.

Lemma signable_names_distinct (p : Payload) :
  NoDup (map fst (spec_signable_fields p)).
Proof.
  cbn. repeat (apply NoDup_cons; [cbn; intuition discriminate|]). apply NoDup_nil.
Qed.

Lemma signable_names_newline_free (p : Payload) :
  Forall (fun nv => newline_free (fst nv)) (spec_signable_fields p).
Proof.
  unfold spec_signable_fields, newline_free.
  repeat (apply Forall_cons; [cbn; intuition discriminate|]). apply Forall_nil.
Qed.

(** A boolean test for [newline_free]. *)
Lemma newline_free_test (s : string) :
  existsb (Byte.eqb x0a) (bytes_of s) = false -> newline_free s.
Proof.
  unfold newline_free. intros H Hin.
  apply In_byte_existsb in Hin. congruence.
Qed.

(** Equal canonical bytes of payloads without newlines in their signable
    values come from equal signable fields. *)
Lemma BuildSignature_injective_newline_free_aux (p q : Payload) :
  newline_free_signable p -> newline_free_signable q ->
  BuildSignature p = BuildSignature q ->
  same_signable_fields p q.
Proof.
  intros Hp Hq E. rewrite !BuildSignature_concat in E.
  apply entries_inj in E.
  - unfold spec_signable_fields in E. unfold same_signable_fields.
    injection E as -> -> -> -> -> -> -> ->. now repeat split.
  - reflexivity.
  - apply signable_names_distinct.
  - apply signable_names_newline_free.
  - exact Hp.
  - exact Hq.
Qed.

(** ** Further facts about the network calls *)

(** [VerifyPayload] reads the payload through its Signature, its
    SigningCertURL, its algorithm and its canonical bytes only. *)
Lemma VerifyPayload_ext {C : Collaborators} (p q : Payload) (w : World) :
  Signature p = Signature q -> SigningCertURL p = SigningCertURL q ->
  SignatureAlgorithm p = SignatureAlgorithm q ->
  BuildSignature p = BuildSignature q ->
  VerifyPayload p w = VerifyPayload q w.
Proof.
  intros H1 H2 H3 H4. unfold VerifyPayload. now rewrite H1, H2, H3, H4.
Qed.

(** [Subscribe] with a SubscribeURL, without the monad. *)
Lemma Subscribe_run {C : Collaborators} (p : Payload) (w : World) :
  SubscribeURL p <> EmptyString ->
  Subscribe p w =
  (match http_transport (requests w) (SubscribeURL p) with
   | Err err => (ConfirmSubscriptionResponse_zero, Some err)
   | Ok resp =>
       match ioutil_ReadAll (http.Body_ resp) with
       | Err err => (ConfirmSubscriptionResponse_zero, Some err)
       | Ok body => xml_Unmarshal_Confirm body ConfirmSubscriptionResponse_zero
       end
   end, after_request w (SubscribeURL p)).
Proof.
  intros H. apply String.eqb_neq in H. unfold Subscribe. rewrite H.
  unfold bind, http_Get, after_request.
  destruct (http_transport (requests w) (SubscribeURL p)) as [resp | err];
    [|reflexivity].
  unfold defer, bind, Body_Close, ret.
  destruct (ioutil_ReadAll (http.Body_ resp)) as [body | err]; [|reflexivity].
  destruct (xml_Unmarshal_Confirm body ConfirmSubscriptionResponse_zero) as [r [e |]];
    reflexivity.
Qed.

(** [Unsubscribe], without the monad. *)
Lemma Unsubscribe_run {C : Collaborators} (p : Payload) (w : World) :
  Unsubscribe p w =
  (match http_transport (requests w) (UnsubscribeURL p) with
   | Err err => (UnsubscribeResponse_zero, Some err)
   | Ok resp =>
       match ioutil_ReadAll (http.Body_ resp) with
       | Err err => (UnsubscribeResponse_zero, Some err)
       | Ok body => xml_Unmarshal_Unsubscribe body UnsubscribeResponse_zero
       end
   end, after_request w (UnsubscribeURL p)).
Proof.
  unfold Unsubscribe, bind, http_Get, after_request.
  destruct (http_transport (requests w) (UnsubscribeURL p)) as [resp | err];
    [|reflexivity].
  unfold defer, bind, Body_Close, ret.
  destruct (ioutil_ReadAll (http.Body_ resp)) as [body | err]; [|reflexivity].
  destruct (xml_Unmarshal_Unsubscribe body UnsubscribeResponse_zero) as [r [e |]];
    reflexivity.
Qed.

(** Every byte of a host that [hostPattern] matches is a letter, a digit,
    a hyphen or a dot. *)
Lemma hostPattern_bytes (b : list byte) :
  regexp.Match hostPattern b = true -> forall c, In c b -> In c host_chars.
Proof.
  intros H c Hc. apply hostPattern_Match_iff in H.
  destruct H as (region & tail & -> & _ & Hall & Htail).
  assert (Hfixed : forall l, forallb (fun x => existsb (Byte.eqb x) host_chars) l = true ->
                   In c l -> In c host_chars).
  { intros l Hl Hin. rewrite forallb_forall in Hl.
    apply In_byte_existsb. now apply Hl. }
  apply in_app_or in Hc. destruct Hc as [Hc | Hc];
    [apply (Hfixed (bytes_of "sns.") eq_refl); exact Hc|].
  apply in_app_or in Hc. destruct Hc as [Hc | Hc].
  { apply Hall in Hc. unfold host_chars.
    change (bytes_of "abcdefghijklmnopqrstuvwxyzABCDEFGHIJKLMNOPQRSTUVWXYZ0123456789-.")
      with (spec_region_chars ++ bytes_of ".").
    apply in_or_app. now left. }
  apply in_app_or in Hc. destruct Hc as [Hc | Hc];
    [apply (Hfixed (bytes_of ".amazonaws.com") eq_refl); exact Hc|].
  destruct Htail as [-> | ->]; [destruct Hc | apply (Hfixed (bytes_of ".cn") eq_refl); exact Hc].
Qed.

(** What a [nil] result of [VerifyPayload] tells. *)
Lemma VerifyPayload_nil_inv {C : Collaborators} (p : Payload) (w : World) :
  fst (VerifyPayload p w) = None ->
  exists sig u cert,
    origin_checks_pass p sig u /\ certificate_fetched p w cert /\
    CheckSignature cert (SignatureAlgorithm p) (BuildSignature p) sig = None.
Proof.
  intros Hnil.
  destruct (VerifyPayload_checks p w) as [(sig & u & Hpass) | (err & E & _)].
  2:{ rewrite E in Hnil. discriminate. }
  rewrite (VerifyPayload_fetch p w sig u Hpass) in Hnil.
  cbn [fst] in Hnil. unfold verdict_of_response in Hnil.
  destruct (http_transport (requests w) (SigningCertURL p))
    as [resp | ?] eqn:Hget; [|discriminate].
  destruct (ioutil_ReadAll (http.Body_ resp)) as [body | ?] eqn:Hread;
    [|discriminate].
  destruct (pem_Decode body) as [decodedPem |] eqn:Hpem; [|discriminate].
  destruct (x509_ParseCertificate (pem.Bytes decodedPem))
    as [cert | ?] eqn:Hcert; [|discriminate].
  exists sig, u, cert. split; [exact Hpass|]. split; [|exact Hnil].
  exists resp, body, decodedPem. auto.
Qed.

(** ** Facts about trimming *)

Lemma string_app_assoc (a b c : string) :
  ((a ++ b) ++ c)%string = (a ++ (b ++ c))%string.
Proof. induction a as [|x a IH]; cbn; [reflexivity | now rewrite IH]. Qed.

Lemma string_app_nil_r (a : string) : (a ++ EmptyString)%string = a.
Proof. induction a as [|x a IH]; cbn; [reflexivity | now rewrite IH]. Qed.

Lemma trimLeftByte_repeat (c : ascii) (n : nat) (s : string) :
  strings.trimLeftByte (repeat_char c n ++ s) c = strings.trimLeftByte s c.
Proof.
  induction n as [|n IH]; cbn; [reflexivity|].
  now rewrite Ascii.eqb_refl.
Qed.

Lemma trimLeftByte_split (c : ascii) (s : string) :
  exists n, s = (repeat_char c n ++ strings.trimLeftByte s c)%string /\
            ~ starts_with c (strings.trimLeftByte s c).
Proof.
  induction s as [|x s (n & IH & Hn)].
  - exists 0. split; [reflexivity|]. intros (t & H). discriminate H.
  - cbn [strings.trimLeftByte]. destruct (Ascii.eqb_spec x c) as [-> | N].
    + exists (S n). split; [cbn; now rewrite <- IH | exact Hn].
    + exists 0. split; [reflexivity|]. intros (t & H). congruence.
Qed.

Lemma trimRightByte_repeat (c : ascii) (m : nat) :
  strings.trimRightByte (repeat_char c m) c = EmptyString.
Proof.
  induction m as [|m IH]; cbn; [reflexivity|].
  now rewrite IH, Ascii.eqb_refl.
Qed.

Lemma trimRightByte_app_repeat (c : ascii) (m : nat) (s : string) :
  strings.trimRightByte (s ++ repeat_char c m) c = strings.trimRightByte s c.
Proof.
  induction s as [|x s IH]; cbn.
  - apply trimRightByte_repeat.
  - now rewrite IH.
Qed.

Lemma trimRightByte_repeat_app (c : ascii) (n : nat) (s : string) :
  strings.trimRightByte (repeat_char c n ++ s) c =
  match strings.trimRightByte s c with
  | EmptyString => EmptyString
  | String y r => (repeat_char c n ++ String y r)%string
  end.
Proof.
  induction n as [|n IH]; cbn.
  - now destruct (strings.trimRightByte s c).
  - rewrite IH. destruct (strings.trimRightByte s c) as [|y r].
    + now rewrite Ascii.eqb_refl.
    + now destruct n.
Qed.

Lemma trimRightByte_split (c : ascii) (s : string) :
  exists m, s = (strings.trimRightByte s c ++ repeat_char c m)%string /\
            ~ ends_with c (strings.trimRightByte s c).
Proof.
  induction s as [|x s (m & IH & Hm)].
  - exists 0. split; [reflexivity|]. intros ([|y t] & H); discriminate H.
  - cbn [strings.trimRightByte].
    destruct (strings.trimRightByte s c) as [|y r] eqn:E.
    + destruct (Ascii.eqb_spec x c) as [-> | N].
      * exists (S m). split; [cbn; now rewrite IH at 1|].
        intros ([|y t] & H); discriminate H.
      * exists m. split; [cbn; now rewrite IH at 1|].
        intros ([|y [|z t]] & H); cbn in H; congruence.
    + exists m. split; [cbn; now rewrite IH at 1|].
      intros (t & H). apply Hm. destruct t as [|z t]; [discriminate H|].
      cbn in H. injection H as _ H. now exists t.
Qed.

(** Quotes around a text do not change what [Trim] makes of it. *)
Lemma Trim_repeat (c : ascii) (n m : nat) (s : string) :
  strings.Trim (repeat_char c n ++ s ++ repeat_char c m) c = strings.Trim s c.
Proof.
  unfold strings.Trim.
  rewrite trimRightByte_repeat_app, trimRightByte_app_repeat.
  destruct (strings.trimRightByte s c) as [|y r]; [reflexivity|].
  apply trimLeftByte_repeat.
Qed.

(** [Trim] takes bytes [c] off both ends and leaves a text that neither
    starts nor ends with [c]. *)
Lemma Trim_split (c : ascii) (s : string) :
  exists n m,
    s = (repeat_char c n ++ strings.Trim s c ++ repeat_char c m)%string /\
    ~ starts_with c (strings.Trim s c) /\ ~ ends_with c (strings.Trim s c).
Proof.
  unfold strings.Trim.
  destruct (trimRightByte_split c s) as (m & Hs & Hend).
  destruct (trimLeftByte_split c (strings.trimRightByte s c)) as (n & Hr & Hstart).
  exists n, m. split; [|split].
  - rewrite <- string_app_assoc, <- Hr. exact Hs.
  - exact Hstart.
  - intros (t & H). apply Hend. exists (repeat_char c n ++ t)%string.
    rewrite Hr at 1. rewrite H. now rewrite string_app_assoc.
Qed.

(** A text without the byte [c] at either end is left as it is. *)
Lemma Trim_unquoted (c : ascii) (s : string) :
  ~ starts_with c s -> ~ ends_with c s -> strings.Trim s c = s.
Proof.
  intros Hstart Hend. unfold strings.Trim.
  assert (Hr : strings.trimRightByte s c = s).
  { clear Hstart. induction s as [|x s IH]; [reflexivity|].
    cbn [strings.trimRightByte]. destruct s as [|y r].
    - cbn. destruct (Ascii.eqb_spec x c) as [-> | N]; [|reflexivity].
      elim Hend. now exists EmptyString.
    - rewrite IH; [reflexivity|].
      intros (t & H). apply Hend. exists (String x t). cbn. now rewrite <- H. }
  rewrite Hr. destruct s as [|x s]; [reflexivity|].
  cbn. destruct (Ascii.eqb_spec x c) as [-> | N]; [|reflexivity].
  elim Hstart. now exists s.
Qed.

(** The last byte of a text that ends with [c]. *)
Lemma ends_with_get (c : ascii) (s : string) :
  ends_with c s -> String.get (String.length s - 1) s = Some c.
Proof.
  intros (t & ->).
  assert (Hlen : String.length (t ++ String c EmptyString) = S (String.length t))
    by (induction t as [|x t IH]; cbn; [reflexivity | now rewrite IH]).
  rewrite Hlen. cbn [Nat.sub]. rewrite Nat.sub_0_r. clear Hlen.
  induction t as [|x t IH]; cbn; [reflexivity | exact IH].
Qed.

(** ** Facts about the call on a pointer *)

(** On a pointer to the payload [p] the loop returns what the loop over
    the fields of [p] gives, in the machine as it was. *)
Lemma BuildSignature_range_run (a : nat) (m : Machine) (p : Payload) :
  heap m a = Some p ->
  forall keys b,
    BuildSignature_range a keys b m = Returns (BuildSignature_loop p keys b) m.
Proof.
  intros Hp keys. induction keys as [|key keys IH]; intros b; cbn.
  - reflexivity.
  - rewrite Hp. apply IH.
Qed.

Lemma BuildSignature_call_run (a : nat) (m : Machine) (p : Payload) :
  heap m a = Some p ->
  BuildSignature_call a m = Returns (BuildSignature p) m.
Proof.
  intros Hp. unfold BuildSignature_call.
  now rewrite (BuildSignature_range_run a m p Hp).
Qed.
(** ** Claims about BuildSignature *)

(** C1: for every payload, [BuildSignature] returns exactly the
    concatenation, over the eight signable fields in the order Message,
    MessageId, Subject, SubscribeURL, Timestamp, Token, TopicArn, Type, of
    the bytes of ["<FieldName>\n<FieldValue>\n"] for each field whose value
    is non-empty; an empty value contributes no byte. *)
Theorem BuildSignature_canonical (p : Payload) :
  BuildSignature p = spec_canonical_bytes p.
Proof.
  rewrite BuildSignature_entries.
  unfold spec_canonical_bytes, spec_signable_fields.
  cbn [map concat]. now rewrite app_nil_r.
Qed.

(** C7: [BuildSignature] is deterministic and performs no IO. Two calls,
    on pointers to payloads whose field values are identical, return the
    same bytes, whatever the two addresses, the rest of the two memories
    and the two worlds are; each call leaves its memory and its world,
    and so the list of requests, as they were. The bytes are those of
    [BuildSignature] on the field values. *)
Theorem BuildSignature_deterministic
    (a b : nat) (m m' : Machine) (p q : Payload) :
  heap m a = Some p -> heap m' b = Some q -> same_fields p q ->
  exists out,
    BuildSignature_call a m = Returns out m /\
    BuildSignature_call b m' = Returns out m' /\
    out = BuildSignature p.
Proof.
  intros Hp Hq H. exists (BuildSignature p).
  rewrite (BuildSignature_call_run a m p Hp).
  rewrite (BuildSignature_call_run b m' q Hq).
  assert (E : BuildSignature q = BuildSignature p).
  { rewrite !BuildSignature_entries.
    destruct p, q; unfold same_fields in H; cbn in H.
    decompose [and] H; subst. reflexivity. }
  rewrite E. repeat split.
Qed.

Lemma BuildSignature_deterministic_witness :
  exists out,
    BuildSignature_call 0 sample_machine = Returns out sample_machine /\
    BuildSignature_call 7 sample_machine_later = Returns out sample_machine_later /\
    out = BuildSignature sample_notification.
Proof.
  apply (BuildSignature_deterministic 0 7 sample_machine sample_machine_later
           sample_notification
           {| Message := "hello"; MessageId := "id-1"; Signature := "c2ln";
              SignatureVersion := "1";
              SigningCertURL := "https://sns.us-east-1.amazonaws.com/cert.pem";
              SubscribeURL := EmptyString; Subject := EmptyString;
              Timestamp := "2020-01-01T00:00:00Z";
              Token := EmptyString; TopicArn := "arn:aws:sns:us-east-1:1:t";
              Type_ := "Notification";
              UnsubscribeURL := "https://sns.us-east-1.amazonaws.com/?u" |}).
  - reflexivity.
  - reflexivity.
  - repeat split.
Defined.

(** C8: when the value of any of the eight signable fields of the record
    contains newline characters, [BuildSignature] emits the bytes of that
    value unchanged, between the field's name line and the closing
    newline, with the entries of the earlier fields before and those of
    the later fields after. *)
Theorem BuildSignature_newline_verbatim
    (p : Payload) (before after : list (string * string)) (k v : string) :
  spec_signable_fields p = before ++ (k, v) :: after ->
  In "010"%char (list_ascii_of_string v) ->
  BuildSignature p =
  concat (map spec_entry before) ++
  (bytes_of k ++ [x0a] ++ bytes_of v ++ [x0a]) ++
  concat (map spec_entry after).
Proof.
  intros Hsplit Hnl. rewrite BuildSignature_concat, Hsplit.
  rewrite map_app, concat_app. cbn [map concat].
  destruct v as [|c v]; [destruct Hnl | reflexivity].
Qed.

Lemma BuildSignature_newline_verbatim_witness :
  BuildSignature multiline_subject =
  bytes_of ("Message" ++ LF ++ "m" ++ LF) ++
  bytes_of ("Subject" ++ LF ++ ("a" ++ LF ++ "b") ++ LF) ++
  bytes_of ("Type" ++ LF ++ ("x" ++ LF ++ LF ++ "y") ++ LF) /\
  BuildSignature multiline_subject =
  (bytes_of ("Message" ++ LF ++ "m" ++ LF) ++
   bytes_of ("Subject" ++ LF ++ ("a" ++ LF ++ "b") ++ LF)) ++
  (bytes_of "Type" ++ [x0a] ++ bytes_of ("x" ++ LF ++ LF ++ "y") ++ [x0a]) ++ [].
Proof.
  split.
  - refine (eq_trans
      (BuildSignature_newline_verbatim multiline_subject
         [("Message", "m"); ("MessageId", EmptyString)]
         [("SubscribeURL", EmptyString); ("Timestamp", EmptyString);
          ("Token", EmptyString); ("TopicArn", EmptyString);
          ("Type", ("x" ++ LF ++ LF ++ "y")%string)]
         "Subject" ("a" ++ LF ++ "b") _ _) _).
    + reflexivity.
    + simpl. right. left. reflexivity.
    + reflexivity.
  - refine (eq_trans
      (BuildSignature_newline_verbatim multiline_subject
         [("Message", "m"); ("MessageId", EmptyString);
          ("Subject", ("a" ++ LF ++ "b")%string);
          ("SubscribeURL", EmptyString); ("Timestamp", EmptyString);
          ("Token", EmptyString); ("TopicArn", EmptyString)]
         [] "Type" ("x" ++ LF ++ LF ++ "y") _ _) _).
    + reflexivity.
    + simpl. right. left. reflexivity.
    + reflexivity.
Defined.

(** C9: [BuildSignature] reads only the eight signable fields: payloads
    that agree on Message, MessageId, Subject, SubscribeURL, Timestamp,
    Token, TopicArn and Type give equal bytes, whatever their Signature,
    SignatureVersion, SigningCertURL and UnsubscribeURL. *)
Theorem BuildSignature_signable_only (p q : Payload) :
  same_signable_fields p q -> BuildSignature p = BuildSignature q.
Proof.
  intros H. rewrite !BuildSignature_entries.
  destruct p, q; unfold same_signable_fields in H; cbn in H.
  decompose [and] H; subst. reflexivity.
Qed.

Lemma BuildSignature_signable_only_witness :
  sample_notification <> sample_tampered /\
  BuildSignature sample_notification = BuildSignature sample_tampered.
Proof.
  split; [discriminate|].
  apply BuildSignature_signable_only. repeat split.
Defined.

(** ** Claims about SignatureAlgorithm *)

(** C4: [SignatureAlgorithm] returns SHA-256-with-RSA exactly when the
    SignatureVersion field is the string ["2"], and SHA-1-with-RSA for
    every other value, among them ["1"] and the empty string. *)
Theorem SignatureAlgorithm_selection (p : Payload) :
  (SignatureAlgorithm p = x509.SHA256WithRSA <-> SignatureVersion p = "2") /\
  (SignatureVersion p <> "2" -> SignatureAlgorithm p = x509.SHA1WithRSA) /\
  (SignatureVersion p = "1" -> SignatureAlgorithm p = x509.SHA1WithRSA) /\
  (SignatureVersion p = EmptyString -> SignatureAlgorithm p = x509.SHA1WithRSA).
Proof.
  unfold SignatureAlgorithm.
  destruct (String.eqb_spec (SignatureVersion p) "2") as [E | N].
  - rewrite E. repeat split; intros; congruence.
  - repeat split; intros; congruence.
Qed.

Lemma SignatureAlgorithm_selection_witness :
  SignatureAlgorithm sample_notification = x509.SHA1WithRSA /\
  SignatureAlgorithm empty_payload = x509.SHA1WithRSA /\
  SignatureAlgorithm sample_tampered = x509.SHA256WithRSA.
Proof.
  split; [|split].
  - exact (proj1 (proj2 (proj2 (SignatureAlgorithm_selection sample_notification)))
             eq_refl).
  - exact (proj2 (proj2 (proj2 (SignatureAlgorithm_selection empty_payload)))
             eq_refl).
  - exact (proj2 (proj1 (SignatureAlgorithm_selection sample_tampered)) eq_refl).
Defined.

(** ** Claims about the host pattern *)

(** C3: [hostPattern] matches exactly the hosts made of ["sns."], three or
    more characters out of [a-zA-Z0-9-], [".amazonaws.com"] and an
    optional [".cn"], with nothing before or after. It matches
    [sns.us-east-1.amazonaws.com] and [sns.cn-north-1.amazonaws.com.cn];
    with a region segment shorter than three characters the host is
    rejected, with one of exactly three characters it is accepted. *)
Theorem hostPattern_accepts_exactly :
  (forall b, Match hostPattern b = true <-> spec_trusted_host b) /\
  Match hostPattern (bytes_of "sns.us-east-1.amazonaws.com") = true /\
  Match hostPattern (bytes_of "sns.cn-north-1.amazonaws.com.cn") = true /\
  (forall region tail, List.length region < 3 ->
     Match hostPattern
       (bytes_of "sns." ++ region ++ bytes_of ".amazonaws.com" ++ tail) = false) /\
  Match hostPattern (bytes_of "sns.ab.amazonaws.com") = false /\
  (forall region, List.length region = 3 ->
     (forall c, In c region -> In c spec_region_chars) ->
     Match hostPattern
       (bytes_of "sns." ++ region ++ bytes_of ".amazonaws.com") = true /\
     Match hostPattern
       (bytes_of "sns." ++ region ++ bytes_of ".amazonaws.com" ++ bytes_of ".cn") = true) /\
  Match hostPattern (bytes_of "sns.abc.amazonaws.com") = true.
Proof.
  split; [exact hostPattern_Match_iff|].
  split; [reflexivity|]. split; [reflexivity|].
  split; [|split; [reflexivity|split; [|reflexivity]]].
  - intros region tail Hlen.
    apply not_true_is_false. intros H.
    apply hostPattern_Match_iff in H.
    destruct H as (region' & tail' & E & Hlen' & Hall & _).
    apply app_inv_head in E.
    assert (Hdot : ~ In "."%byte spec_region_chars).
    { rewrite In_byte_existsb. vm_compute. discriminate. }
    destruct region as [|a [|b [|c region]]]; [| | |cbn in Hlen; lia];
      destruct region' as [|a' [|b' [|c' region']]]; try (cbn in Hlen'; lia);
      cbn in E; injection E as Ea Eb Ec _; apply Hdot.
    + apply Hall. rewrite <- Ea. now left.
    + apply Hall. rewrite <- Eb. right. now left.
    + apply Hall. rewrite <- Ec. right. right. now left.
  - intros region Hlen Hall. split; apply hostPattern_Match_iff.
    + exists region, []. rewrite app_nil_r.
      repeat split; [lia | exact Hall | now left].
    + exists region, (bytes_of ".cn").
      repeat split; [lia | exact Hall | now right].
Qed.

(** ** Claims about VerifyPayload *)

(** C2: [VerifyPayload] returns [nil] only if the certificate URL has
    scheme [https], its host matches [hostPattern], and the public key of
    the fetched certificate validates the decoded signature over the bytes
    of [BuildSignature] (and then it does return [nil]); when the scheme,
    the host or the signature check fails, it returns an error. *)
Theorem VerifyPayload_success_iff {C : Collaborators} (p : Payload) (w : World) :
  (fst (VerifyPayload p w) = None <->
   exists sig u cert,
     origin_checks_pass p sig u /\ certificate_fetched p w cert /\
     CheckSignature cert (SignatureAlgorithm p) (BuildSignature p) sig = None) /\
  (forall u, url_Parse (SigningCertURL p) = Ok u -> url.Scheme u <> "https" ->
     exists err, fst (VerifyPayload p w) = Some err) /\
  (forall u, url_Parse (SigningCertURL p) = Ok u ->
     regexp.Match hostPattern (bytes_of (url.Host u)) = false ->
     exists err, fst (VerifyPayload p w) = Some err) /\
  (forall sig u cert err,
     origin_checks_pass p sig u -> certificate_fetched p w cert ->
     CheckSignature cert (SignatureAlgorithm p) (BuildSignature p) sig = Some err ->
     fst (VerifyPayload p w) = Some err).
Proof.
  assert (Hiff : fst (VerifyPayload p w) = None <->
    exists sig u cert,
      origin_checks_pass p sig u /\ certificate_fetched p w cert /\
      CheckSignature cert (SignatureAlgorithm p) (BuildSignature p) sig = None).
  { split.
    - intros Hnil.
      destruct (VerifyPayload_checks p w) as [(sig & u & Hpass) | (err & E & _)].
      2:{ rewrite E in Hnil. discriminate. }
      rewrite (VerifyPayload_fetch p w sig u Hpass) in Hnil.
      cbn [fst] in Hnil. unfold verdict_of_response in Hnil.
      destruct (http_transport (requests w) (SigningCertURL p))
        as [resp | ?] eqn:Hget; [|discriminate].
      destruct (ioutil_ReadAll (http.Body_ resp)) as [body | ?] eqn:Hread;
        [|discriminate].
      destruct (pem_Decode body) as [decodedPem |] eqn:Hpem; [|discriminate].
      destruct (x509_ParseCertificate (pem.Bytes decodedPem))
        as [cert | ?] eqn:Hcert; [|discriminate].
      exists sig, u, cert. split; [exact Hpass|]. split; [|exact Hnil].
      exists resp, body, decodedPem. auto.
    - intros (sig & u & cert & Hpass & (resp & body & blk & Hget & Hread & Hpem & Hcert) & Hsig).
      rewrite (VerifyPayload_fetch p w sig u Hpass). cbn [fst].
      unfold verdict_of_response. now rewrite Hget, Hread, Hpem, Hcert. }
  split; [exact Hiff|].
  assert (Hsome : fst (VerifyPayload p w) <> None ->
                  exists err, fst (VerifyPayload p w) = Some err).
  { destruct (fst (VerifyPayload p w)) as [err |]; [eauto | congruence]. }
  split; [|split].
  - intros u Hu Hscheme. apply Hsome. intros Hnil.
    apply Hiff in Hnil. destruct Hnil as (sig & u' & _ & (_ & Hu' & Hs & _) & _).
    congruence.
  - intros u Hu Hhost. apply Hsome. intros Hnil.
    apply Hiff in Hnil. destruct Hnil as (sig & u' & _ & (_ & Hu' & _ & Hm) & _).
    congruence.
  - intros sig u cert err Hpass (resp & body & blk & Hget & Hread & Hpem & Hcert) Hsig.
    rewrite (VerifyPayload_fetch p w sig u Hpass). cbn [fst].
    unfold verdict_of_response. now rewrite Hget, Hread, Hpem, Hcert.
Qed.

Lemma VerifyPayload_success_iff_witness :
  fst (@VerifyPayload (fixture (Ok (response_with 200 "cert")))
         sample_notification initial_world) = None /\
  exists err,
    fst (@VerifyPayload (fixture (Ok (response_with 200 "cert")))
           sample_tampered initial_world) = Some err.
Proof.
  split.
  - apply (proj1 (@VerifyPayload_success_iff (fixture (Ok (response_with 200 "cert")))
                    sample_notification initial_world)).
    exists (bytes_of "sig").
    exists {| url.Scheme := "https"; url.Opaque := EmptyString;
              url.Host := "sns.us-east-1.amazonaws.com";
              url.Path := "/cert.pem"; url.RawQuery := EmptyString; url.Fragment := EmptyString |}.
    exists (bytes_of "cert").
    split; [repeat split|]. split; [|reflexivity].
    exists (response_with 200 "cert"), (bytes_of "cert").
    exists {| pem.Type_ := "CERTIFICATE"; pem.Headers := [];
              pem.Bytes := bytes_of "cert" |}.
    repeat split.
  - apply (proj1 (proj2 (@VerifyPayload_success_iff
                    (fixture (Ok (response_with 200 "cert")))
                    sample_tampered initial_world))
             {| url.Scheme := "http"; url.Opaque := EmptyString;
                url.Host := "evil.example";
                url.Path := "/cert.pem"; url.RawQuery := EmptyString; url.Fragment := EmptyString |}).
    + reflexivity.
    + discriminate.
Defined.

(** C5: [VerifyPayload] calls [http.Get] only after the signature has
    decoded, the certificate URL has parsed, its scheme is [https] and its
    host matches [hostPattern]. When one of these fails the error of that
    step is returned and the world is as before: no request was made. A
    certificate URL that is not [https] never leads to a request. When a
    request was made, all four had succeeded and it was the one GET of the
    certificate URL. *)
Theorem VerifyPayload_checks_before_fetch {C : Collaborators}
    (p : Payload) (w : World) :
  (forall err, base64_DecodeString (Signature p) = Err err ->
     VerifyPayload p w = (Some err, w)) /\
  (forall sig err, base64_DecodeString (Signature p) = Ok sig ->
     url_Parse (SigningCertURL p) = Err err ->
     VerifyPayload p w = (Some err, w)) /\
  (forall sig u, base64_DecodeString (Signature p) = Ok sig ->
     url_Parse (SigningCertURL p) = Ok u -> url.Scheme u <> "https" ->
     VerifyPayload p w = (Some (errorString "url should be using https"), w)) /\
  (forall sig u, base64_DecodeString (Signature p) = Ok sig ->
     url_Parse (SigningCertURL p) = Ok u -> url.Scheme u = "https" ->
     regexp.Match hostPattern (bytes_of (url.Host u)) = false ->
     VerifyPayload p w =
     (Some (errorString "certificate is located on an invalid domain"), w)) /\
  (forall u, url_Parse (SigningCertURL p) = Ok u -> url.Scheme u <> "https" ->
     exists err, VerifyPayload p w = (Some err, w)) /\
  (requests (snd (VerifyPayload p w)) <> requests w ->
     (exists sig u, origin_checks_pass p sig u) /\
     requests (snd (VerifyPayload p w)) = requests w ++ [SigningCertURL p]).
Proof.
  split; [exact (VerifyPayload_bad_signature p w)|].
  split; [exact (VerifyPayload_bad_url p w)|].
  split; [exact (VerifyPayload_bad_scheme p w)|].
  split; [exact (VerifyPayload_bad_host p w)|].
  split.
  - intros u Hu Hscheme.
    destruct (VerifyPayload_checks p w) as [(sig & u' & (_ & Hu' & Hs & _)) | (err & E & _)].
    + congruence.
    + eauto.
  - intros Hreq.
    destruct (VerifyPayload_checks p w) as [(sig & u & Hpass) | (err & E & _)].
    + split; [eauto|]. now rewrite (VerifyPayload_fetch p w sig u Hpass).
    + rewrite E in Hreq. now elim Hreq.
Qed.

Lemma VerifyPayload_checks_before_fetch_witness :
  @VerifyPayload (fixture (Ok (response_with 200 "cert")))
    sample_tampered initial_world =
  (Some (library_error "illegal base64 data at input byte 0"), initial_world).
Proof.
  apply (proj1 (@VerifyPayload_checks_before_fetch
                  (fixture (Ok (response_with 200 "cert")))
                  sample_tampered initial_world)).
  reflexivity.
Defined.

(** C6, as the code has it: when the transport fails, [VerifyPayload]
    returns the error of [http.Get], after that one request. The status
    code of a response is not looked at: whatever the status codes of the
    network are turned into, [VerifyPayload] returns the same and leaves
    the same world, so the body of a response with a status outside
    200..299 is read and decoded as certificate bytes like any other. *)
Theorem VerifyPayload_status_not_examined {C : Collaborators}
    (p : Payload) (w : World) :
  (forall sig u err, origin_checks_pass p sig u ->
     http_transport (requests w) (SigningCertURL p) = Err err ->
     VerifyPayload p w = (Some err, after_request w (SigningCertURL p))) /\
  (forall f : Z -> Z,
     @VerifyPayload (with_status f C) p w = @VerifyPayload C p w).
Proof.
  split.
  - intros sig u err Hpass Hget.
    rewrite (VerifyPayload_fetch p w sig u Hpass). now rewrite Hget.
  - intros f.
    destruct (@base64_DecodeString C (Signature p)) as [sig | err] eqn:H1.
    2:{ rewrite (@VerifyPayload_bad_signature C p w err H1).
        exact (@VerifyPayload_bad_signature (with_status f C) p w err H1). }
    destruct (@url_Parse C (SigningCertURL p)) as [u | err] eqn:H2.
    2:{ rewrite (@VerifyPayload_bad_url C p w sig err H1 H2).
        exact (@VerifyPayload_bad_url (with_status f C) p w sig err H1 H2). }
    destruct (String.eqb_spec (url.Scheme u) "https") as [H3 | H3].
    2:{ rewrite (@VerifyPayload_bad_scheme C p w sig u H1 H2 H3).
        exact (@VerifyPayload_bad_scheme (with_status f C) p w sig u H1 H2 H3). }
    destruct (regexp.Match hostPattern (bytes_of (url.Host u))) eqn:H4.
    2:{ rewrite (@VerifyPayload_bad_host C p w sig u H1 H2 H3 H4).
        exact (@VerifyPayload_bad_host (with_status f C) p w sig u H1 H2 H3 H4). }
    assert (Hpass : @origin_checks_pass C p sig u) by now repeat split.
    rewrite (@VerifyPayload_fetch C p w sig u Hpass).
    rewrite (@VerifyPayload_fetch (with_status f C) p w sig u Hpass).
    f_equal. cbn.
    destruct (@http_transport C (requests w) (SigningCertURL p)); reflexivity.
Qed.

Lemma VerifyPayload_status_not_examined_witness :
  @VerifyPayload (fixture (Err (library_error "dial tcp: connection refused")))
    sample_notification initial_world =
  (Some (library_error "dial tcp: connection refused"),
   {| requests := ["https://sns.us-east-1.amazonaws.com/cert.pem"];
      open_bodies := 0 |}).
Proof.
  apply (proj1 (@VerifyPayload_status_not_examined
                  (fixture (Err (library_error "dial tcp: connection refused")))
                  sample_notification initial_world)
           (bytes_of "sig")
           {| url.Scheme := "https"; url.Opaque := EmptyString;
              url.Host := "sns.us-east-1.amazonaws.com";
              url.Path := "/cert.pem"; url.RawQuery := EmptyString; url.Fragment := EmptyString |}).
  - repeat split.
  - reflexivity.
Defined.

(** C6 as the specification states it fails: over a network that answers
    the GET of the certificate with status 404 and a body that holds a
    certificate whose key validates the signature, [VerifyPayload]
    returns [nil]. *)
Lemma non_2xx_response_is_processed : ~ spec_non_2xx_is_fetch_failure.
Proof.
  intros H.
  destruct (H (fixture (Ok (response_with 404 "cert")))
              sample_notification initial_world (bytes_of "sig")
              {| url.Scheme := "https"; url.Opaque := EmptyString;
                 url.Host := "sns.us-east-1.amazonaws.com";
                 url.Path := "/cert.pem"; url.RawQuery := EmptyString; url.Fragment := EmptyString |}
              (response_with 404 "cert")) as [err Herr].
  - repeat split.
  - reflexivity.
  - right. cbn. lia.
  - vm_compute in Herr. discriminate Herr.
Qed.

(** ** Claims about Subscribe and Unsubscribe *)

(** C10: with an empty SubscribeURL, [Subscribe] returns the zero response
    and an error and makes no request; [Unsubscribe] has no such check: its
    first act is the GET of UnsubscribeURL, also when that is empty. *)
Theorem Subscribe_guards_empty_url {C : Collaborators} (p : Payload) (w : World) :
  (SubscribeURL p = EmptyString ->
     Subscribe p w =
     ((ConfirmSubscriptionResponse_zero,
       Some (errorString "Payload does not have a SubscribeURL!")), w)) /\
  requests (snd (Unsubscribe p w)) = requests w ++ [UnsubscribeURL p] /\
  (UnsubscribeURL p = EmptyString ->
     requests (snd (Unsubscribe p w)) = requests w ++ [EmptyString]).
Proof.
  assert (Hun : requests (snd (Unsubscribe p w)) = requests w ++ [UnsubscribeURL p]).
  { unfold Unsubscribe, bind, http_Get.
    destruct (http_transport (requests w) (UnsubscribeURL p)) as [resp | err];
      [|reflexivity].
    unfold defer, bind, Body_Close, ret.
    destruct (ioutil_ReadAll (http.Body_ resp)) as [body | err]; [|reflexivity].
    destruct (xml_Unmarshal_Unsubscribe body UnsubscribeResponse_zero) as [r [e |]];
      reflexivity. }
  split; [|split].
  - intros H. unfold Subscribe. now rewrite H.
  - exact Hun.
  - intros H. now rewrite Hun, H.
Qed.

Lemma Subscribe_guards_empty_url_witness :
  @Subscribe (fixture (Ok (response_with 200 "<UnsubscribeResponse/>")))
    empty_payload initial_world =
  ((ConfirmSubscriptionResponse_zero,
    Some (errorString "Payload does not have a SubscribeURL!")), initial_world) /\
  requests (snd (@Unsubscribe (fixture (Ok (response_with 200 "<UnsubscribeResponse/>")))
                   empty_payload initial_world)) = [EmptyString].
Proof.
  split.
  - apply (proj1 (@Subscribe_guards_empty_url
                    (fixture (Ok (response_with 200 "<UnsubscribeResponse/>")))
                    empty_payload initial_world)).
    reflexivity.
  - apply (proj2 (proj2 (@Subscribe_guards_empty_url
                    (fixture (Ok (response_with 200 "<UnsubscribeResponse/>")))
                    empty_payload initial_world))).
    reflexivity.
Defined.

(** * Further properties *)

(** ** BuildSignature *)

(** X1: [BuildSignature] returns no bytes exactly when all eight signable
    fields are empty. *)
Theorem BuildSignature_nil_iff (p : Payload) :
  BuildSignature p = [] <-> no_signable_field p.
Proof.
  rewrite BuildSignature_entries. unfold no_signable_field. split.
  - intros H.
    repeat (apply app_eq_nil in H; destruct H as [?H H]).
    repeat match goal with
           | E : spec_entry _ = [] |- _ => apply spec_entry_nil in E
           end.
    now repeat split.
  - intros (H1 & H2 & H3 & H4 & H5 & H6 & H7 & H8).
    now rewrite H1, H2, H3, H4, H5, H6, H7, H8.
Qed.

(** X2: on payloads whose signable values hold no newline,
    [BuildSignature] is injective in the eight signable fields: equal
    bytes come only from equal field values. *)
Theorem BuildSignature_injective_newline_free (p q : Payload) :
  newline_free_signable p -> newline_free_signable q ->
  BuildSignature p = BuildSignature q ->
  same_signable_fields p q.
Proof.
  apply BuildSignature_injective_newline_free_aux.
Qed.

Lemma BuildSignature_injective_newline_free_witness :
  same_signable_fields sample_notification sample_tampered.
Proof.
  apply BuildSignature_injective_newline_free.
  - repeat (apply Forall_cons; [apply newline_free_test; reflexivity|]).
    apply Forall_nil.
  - repeat (apply Forall_cons; [apply newline_free_test; reflexivity|]).
    apply Forall_nil.
  - reflexivity.
Defined.

(** X3: values are not escaped, so a newline in a value can stand for a
    field boundary: a payload whose Message is [a "\nMessageId\n" b] and
    whose MessageId is empty gives the same bytes as the payload with
    Message [a] and MessageId [b], for non-empty [a] and [b], although the
    two differ in their signable fields. *)
Theorem BuildSignature_newline_collision (p : Payload) (a b : string) :
  a <> EmptyString -> b <> EmptyString ->
  BuildSignature
    (with_Message_MessageId p (a ++ LF ++ "MessageId" ++ LF ++ b) EmptyString) =
  BuildSignature (with_Message_MessageId p a b) /\
  ~ same_signable_fields
      (with_Message_MessageId p (a ++ LF ++ "MessageId" ++ LF ++ b) EmptyString)
      (with_Message_MessageId p a b).
Proof.
  intros Ha Hb. split.
  - assert (Hkey :
      spec_entry ("Message", (a ++ LF ++ "MessageId" ++ LF ++ b)%string) ++
      spec_entry ("MessageId", EmptyString) =
      spec_entry ("Message", a) ++ spec_entry ("MessageId", b)).
    { destruct a as [|ca a]; [congruence|]. destruct b as [|cb b]; [congruence|].
      change (spec_entry ("MessageId", EmptyString)) with (@nil byte).
      rewrite app_nil_r, !spec_entry_cons.
      change (spec_entry ("Message", (String ca a ++ LF ++ "MessageId" ++ LF ++ String cb b)%string))
        with (bytes_of "Message" ++ x0a ::
              bytes_of (String ca a ++ LF ++ "MessageId" ++ LF ++ String cb b)%string ++ [x0a]).
      rewrite !bytes_of_app, bytes_of_LF.
      repeat (rewrite <- app_assoc; cbn [app]). reflexivity. }
    rewrite !BuildSignature_entries.
    cbn [with_Message_MessageId Message MessageId Subject SubscribeURL
         Timestamp Token TopicArn Type_].
    rewrite (app_assoc (spec_entry ("Message", (a ++ LF ++ "MessageId" ++ LF ++ b)%string))).
    rewrite Hkey. now rewrite <- app_assoc.
  - intros (_ & H & _). cbn in H. congruence.
Qed.

Lemma BuildSignature_newline_collision_witness :
  BuildSignature
    (with_Message_MessageId sample_notification
       ("a" ++ LF ++ "MessageId" ++ LF ++ "b") EmptyString) =
  BuildSignature (with_Message_MessageId sample_notification "a" "b").
Proof.
  apply (BuildSignature_newline_collision sample_notification "a" "b");
    discriminate.
Defined.

(** ** VerifyPayload *)

(** X4: the result of [VerifyPayload] and the world it leaves are
    determined by the Signature, the SigningCertURL, the selected
    algorithm and the bytes of [BuildSignature]: payloads that agree on
    these four are verified alike, whatever else differs. *)
Theorem VerifyPayload_determined_by {C : Collaborators} (p q : Payload) (w : World) :
  Signature p = Signature q -> SigningCertURL p = SigningCertURL q ->
  SignatureAlgorithm p = SignatureAlgorithm q ->
  BuildSignature p = BuildSignature q ->
  VerifyPayload p w = VerifyPayload q w.
Proof. apply VerifyPayload_ext. Qed.

Lemma VerifyPayload_determined_by_witness :
  @VerifyPayload (fixture (Ok (response_with 200 "cert")))
    (with_Message_MessageId sample_notification
       ("a" ++ LF ++ "MessageId" ++ LF ++ "b") EmptyString) initial_world =
  @VerifyPayload (fixture (Ok (response_with 200 "cert")))
    (with_Message_MessageId sample_notification "a" "b") initial_world.
Proof.
  apply VerifyPayload_determined_by; reflexivity.
Defined.

(** X5: the UnsubscribeURL is not covered by the verification: payloads
    that differ in nothing but the UnsubscribeURL get the same result. *)
Theorem VerifyPayload_ignores_UnsubscribeURL {C : Collaborators}
    (p q : Payload) (w : World) :
  same_but_UnsubscribeURL p q -> VerifyPayload p w = VerifyPayload q w.
Proof.
  intros (H1 & H2 & H3 & H4 & H5 & H6 & H7 & H8 & H9 & H10 & H11).
  apply VerifyPayload_ext; try assumption.
  - unfold SignatureAlgorithm. now rewrite H4.
  - rewrite !BuildSignature_entries. congruence.
Qed.

Lemma VerifyPayload_ignores_UnsubscribeURL_witness :
  sample_notification <> sample_redirected /\
  @VerifyPayload (fixture (Ok (response_with 200 "cert")))
    sample_notification initial_world =
  @VerifyPayload (fixture (Ok (response_with 200 "cert")))
    sample_redirected initial_world.
Proof.
  split; [discriminate|].
  apply VerifyPayload_ignores_UnsubscribeURL. repeat split.
Defined.

(** X6: every SignatureVersion other than ["2"] is verified as the same
    legacy version: payloads that differ only in SignatureVersion, neither
    being ["2"], get the same result. *)
Theorem VerifyPayload_legacy_versions_alike {C : Collaborators}
    (p q : Payload) (w : World) :
  same_but_SignatureVersion p q ->
  SignatureVersion p <> "2" -> SignatureVersion q <> "2" ->
  VerifyPayload p w = VerifyPayload q w.
Proof.
  intros (H1 & H2 & H3 & H4 & H5 & H6 & H7 & H8 & H9 & H10 & H11) Hp Hq.
  apply VerifyPayload_ext; try assumption.
  - unfold SignatureAlgorithm.
    apply String.eqb_neq in Hp, Hq. now rewrite Hp, Hq.
  - rewrite !BuildSignature_entries. congruence.
Qed.

Lemma VerifyPayload_legacy_versions_alike_witness :
  sample_notification <> sample_unversioned /\
  @VerifyPayload (fixture (Ok (response_with 200 "cert")))
    sample_notification initial_world =
  @VerifyPayload (fixture (Ok (response_with 200 "cert")))
    sample_unversioned initial_world.
Proof.
  split; [discriminate|].
  apply VerifyPayload_legacy_versions_alike; [repeat split | discriminate | discriminate].
Defined.

(** X7: a call of [VerifyPayload] leaves the world as it was, or with the
    one GET of the SigningCertURL added to the requests; on every path the
    response body it opened is closed again. *)
Theorem VerifyPayload_world {C : Collaborators} (p : Payload) (w : World) :
  snd (VerifyPayload p w) = w \/
  snd (VerifyPayload p w) = after_request w (SigningCertURL p).
Proof.
  destruct (VerifyPayload_checks p w) as [(sig & u & Hpass) | (err & E & _)].
  - right. now rewrite (VerifyPayload_fetch p w sig u Hpass).
  - left. now rewrite E.
Qed.

(** X8: what [VerifyPayload] returns when the response to its GET is of
    no use: the error of reading the body; the error
    ["The decoded PEM file was empty!"] when the body holds no PEM block;
    the error of parsing the block as a certificate. In each case the
    request has been made and the body is closed. *)
Theorem VerifyPayload_certificate_errors {C : Collaborators}
    (p : Payload) (w : World) (sig : list byte) (u : url.URL)
    (resp : http.Response) :
  origin_checks_pass p sig u ->
  http_transport (requests w) (SigningCertURL p) = Ok resp ->
  (forall err, ioutil_ReadAll (http.Body_ resp) = Err err ->
     VerifyPayload p w = (Some err, after_request w (SigningCertURL p))) /\
  (forall body, ioutil_ReadAll (http.Body_ resp) = Ok body ->
     pem_Decode body = None ->
     VerifyPayload p w =
     (Some (errorString "The decoded PEM file was empty!"),
      after_request w (SigningCertURL p))) /\
  (forall body decodedPem err, ioutil_ReadAll (http.Body_ resp) = Ok body ->
     pem_Decode body = Some decodedPem ->
     x509_ParseCertificate (pem.Bytes decodedPem) = Err err ->
     VerifyPayload p w = (Some err, after_request w (SigningCertURL p))).
Proof.
  intros Hpass Hget. rewrite (VerifyPayload_fetch p w sig u Hpass), Hget.
  unfold verdict_of_response. split; [|split].
  - intros err Hread. now rewrite Hread.
  - intros body Hread Hpem. now rewrite Hread, Hpem.
  - intros body blk err Hread Hpem Hcert. now rewrite Hread, Hpem, Hcert.
Qed.

Lemma VerifyPayload_certificate_errors_witness :
  @VerifyPayload (fixture (Ok (response_with 200 EmptyString)))
    sample_notification initial_world =
  (Some (errorString "The decoded PEM file was empty!"),
   after_request initial_world (SigningCertURL sample_notification)).
Proof.
  refine (proj1 (proj2 (@VerifyPayload_certificate_errors
            (fixture (Ok (response_with 200 EmptyString)))
            sample_notification initial_world (bytes_of "sig")
            {| url.Scheme := "https"; url.Opaque := EmptyString;
               url.Host := "sns.us-east-1.amazonaws.com";
               url.Path := "/cert.pem"; url.RawQuery := EmptyString;
               url.Fragment := EmptyString |}
            (response_with 200 EmptyString) _ _)) [] _ _).
  - repeat split.
  - reflexivity.
  - reflexivity.
  - reflexivity.
Defined.

(** ** The host pattern *)

(** X9: a host that [hostPattern] matches consists of letters, digits,
    hyphens and dots only, so it holds no port, user information or path;
    it has three dots, or four when it ends in [.cn], the region being a
    single label; and it is at least 21 bytes long. *)
Theorem hostPattern_host_shape (b : list byte) :
  regexp.Match hostPattern b = true ->
  (forall c, In c b -> In c host_chars) /\
  (dots b = 3 \/ dots b = 4) /\
  21 <= List.length b.
Proof.
  intros H. split; [exact (hostPattern_bytes b H)|].
  apply hostPattern_Match_iff in H.
  destruct H as (region & tail & -> & Hlen & Hall & Htail).
  assert (Hreg : dots region = 0).
  { unfold dots. clear Hlen. induction region as [|c region IH]; [reflexivity|].
    cbn [filter].
    destruct (Byte.eqb "." c) eqn:E.
    - apply Byte.byte_dec_bl in E. subst c. exfalso.
      assert (Hin : In "."%byte spec_region_chars) by (apply Hall; now left).
      apply In_byte_existsb in Hin. vm_compute in Hin. discriminate Hin.
    - apply IH. intros x Hx. apply Hall. now right. }
  unfold dots in *. rewrite !filter_app, !length_app, Hreg. split.
  - destruct Htail as [-> | ->]; [left | right]; reflexivity.
  - rewrite ?length_app.
    destruct Htail as [-> | ->]; cbn; lia.
Qed.

Lemma hostPattern_host_shape_witness :
  dots (bytes_of "sns.cn-north-1.amazonaws.com.cn") = 3 \/
  dots (bytes_of "sns.cn-north-1.amazonaws.com.cn") = 4.
Proof.
  apply (hostPattern_host_shape (bytes_of "sns.cn-north-1.amazonaws.com.cn")).
  reflexivity.
Defined.

(** X10: when the host of the parsed SigningCertURL holds a byte that is
    no letter, digit, hyphen or dot (the colon of a port, say),
    [VerifyPayload] returns the invalid-domain error without any request,
    given that the signature decodes and the scheme is [https]. *)
Theorem VerifyPayload_rejects_foreign_host_byte {C : Collaborators}
    (p : Payload) (w : World) (sig : list byte) (u : url.URL) (c : byte) :
  base64_DecodeString (Signature p) = Ok sig ->
  url_Parse (SigningCertURL p) = Ok u ->
  url.Scheme u = "https" ->
  In c (bytes_of (url.Host u)) -> ~ In c host_chars ->
  VerifyPayload p w =
  (Some (errorString "certificate is located on an invalid domain"), w).
Proof.
  intros H1 H2 H3 Hin Hout.
  apply VerifyPayload_bad_host with sig u; try assumption.
  apply not_true_is_false. intros Hm.
  apply Hout. exact (hostPattern_bytes _ Hm c Hin).
Qed.

Lemma VerifyPayload_rejects_foreign_host_byte_witness :
  @VerifyPayload
    (with_url_Parse (fun _ => Ok url_with_port)
       (fixture (Ok (response_with 200 "cert"))))
    sample_notification initial_world =
  (Some (errorString "certificate is located on an invalid domain"), initial_world).
Proof.
  apply (@VerifyPayload_rejects_foreign_host_byte
           (with_url_Parse (fun _ => Ok url_with_port)
              (fixture (Ok (response_with 200 "cert"))))
           sample_notification initial_world (bytes_of "sig") url_with_port
           ":"%byte).
  - reflexivity.
  - reflexivity.
  - reflexivity.
  - vm_compute. tauto.
  - intros H. apply In_byte_existsb in H. vm_compute in H. discriminate H.
Defined.

(** X19: tampering with a signable field shows as a collision of the
    digest. If, under the algorithm of the payload, a signature validates
    byte sequences of one digest only,
    then two payloads without newlines in their signable values that
    carry the same Signature, SigningCertURL and SignatureVersion and are
    both accepted by [VerifyPayload] in the same world have the same
    eight signable fields, or their canonical bytes are two different
    byte sequences with the same digest. *)
Theorem VerifyPayload_detects_tampering {C : Collaborators}
    (digest : x509.SignatureAlgorithm -> list byte -> list byte)
    (p q : Payload) (w : World) :
  signatures_bind_one_digest digest (SignatureAlgorithm p) ->
  newline_free_signable p -> newline_free_signable q ->
  Signature p = Signature q -> SigningCertURL p = SigningCertURL q ->
  SignatureVersion p = SignatureVersion q ->
  fst (VerifyPayload p w) = None -> fst (VerifyPayload q w) = None ->
  same_signable_fields p q \/
  (BuildSignature p <> BuildSignature q /\
   digest (SignatureAlgorithm p) (BuildSignature p) =
   digest (SignatureAlgorithm p) (BuildSignature q)).
Proof.
  intros Hbind Hp Hq Hsig Hurl Hver Hnp Hnq.
  apply VerifyPayload_nil_inv in Hnp, Hnq.
  destruct Hnp as (sig & u & cert & (Hdec & _) & (resp & body & blk & Hget & Hread & Hpem & Hcert) & Hcheck).
  destruct Hnq as (sig' & u' & cert' & (Hdec' & _) & (resp' & body' & blk' & Hget' & Hread' & Hpem' & Hcert') & Hcheck').
  rewrite <- Hsig in Hdec'. rewrite <- Hurl in Hget'.
  assert (sig' = sig) by congruence. subst sig'.
  assert (resp' = resp) by congruence. subst resp'.
  assert (body' = body) by congruence. subst body'.
  assert (blk' = blk) by congruence. subst blk'.
  assert (cert' = cert) by congruence. subst cert'.
  assert (Halg : SignatureAlgorithm q = SignatureAlgorithm p)
    by (unfold SignatureAlgorithm; now rewrite Hver).
  rewrite Halg in Hcheck'.
  destruct (list_eq_dec Byte.byte_eq_dec (BuildSignature p) (BuildSignature q))
    as [E | N].
  - left. exact (BuildSignature_injective_newline_free_aux p q Hp Hq E).
  - right. split; [exact N|]. exact (Hbind _ _ _ _ Hcheck Hcheck').
Qed.

Lemma VerifyPayload_detects_tampering_witness :
  ~ same_signable_fields sample_signed sample_signed_altered /\
  (same_signable_fields sample_signed sample_signed_altered \/
   (BuildSignature sample_signed <> BuildSignature sample_signed_altered /\
    length_digest (SignatureAlgorithm sample_signed) (BuildSignature sample_signed) =
    length_digest (SignatureAlgorithm sample_signed)
      (BuildSignature sample_signed_altered))).
Proof.
  split; [intros (H & _); discriminate H|].
  apply (@VerifyPayload_detects_tampering length_fixture length_digest
           sample_signed sample_signed_altered initial_world).
  - intros cert signed signed' signature H H'. cbn in H, H'.
    unfold length_digest.
    destruct (Nat.eqb_spec (List.length signed) (List.length signature))
      as [E | ]; [|discriminate H].
    destruct (Nat.eqb_spec (List.length signed') (List.length signature))
      as [E' | ]; [|discriminate H'].
    now rewrite E, E'.
  - repeat (apply Forall_cons; [apply newline_free_test; reflexivity|]).
    apply Forall_nil.
  - repeat (apply Forall_cons; [apply newline_free_test; reflexivity|]).
    apply Forall_nil.
  - reflexivity.
  - reflexivity.
  - reflexivity.
  - reflexivity.
  - reflexivity.
Defined.

(** ** Subscribe and Unsubscribe *)

(** X11: [Subscribe] returns no error exactly when the SubscribeURL is not
    empty, its GET gives a response, the body reads, and [xml.Unmarshal]
    reports no error. Once the body has been read the result is the record
    and the error of [xml.Unmarshal], so a record that is not the zero
    value can only come from there: with an empty URL, a failed GET or a
    failed read the zero record is returned. *)
Theorem Subscribe_outcome {C : Collaborators} (p : Payload) (w : World) :
  (snd (fst (Subscribe p w)) = None <->
   SubscribeURL p <> EmptyString /\
   exists resp body,
     http_transport (requests w) (SubscribeURL p) = Ok resp /\
     ioutil_ReadAll (http.Body_ resp) = Ok body /\
     snd (xml_Unmarshal_Confirm body ConfirmSubscriptionResponse_zero) = None) /\
  (forall resp body,
     SubscribeURL p <> EmptyString ->
     http_transport (requests w) (SubscribeURL p) = Ok resp ->
     ioutil_ReadAll (http.Body_ resp) = Ok body ->
     fst (Subscribe p w) =
     xml_Unmarshal_Confirm body ConfirmSubscriptionResponse_zero) /\
  (fst (fst (Subscribe p w)) <> ConfirmSubscriptionResponse_zero ->
   SubscribeURL p <> EmptyString /\
   exists resp body,
     http_transport (requests w) (SubscribeURL p) = Ok resp /\
     ioutil_ReadAll (http.Body_ resp) = Ok body).
Proof.
  destruct (String.eqb_spec (SubscribeURL p) EmptyString) as [E | N].
  - assert (Hrun : Subscribe p w =
      ((ConfirmSubscriptionResponse_zero,
        Some (errorString "Payload does not have a SubscribeURL!")), w)).
    { unfold Subscribe. now rewrite E. }
    rewrite Hrun. cbn [fst snd]. split; [|split].
    + split; [discriminate | intros [H _]; congruence].
    + intros resp body H. congruence.
    + intros H. congruence.
  - rewrite (Subscribe_run p w N). cbn [fst snd]. split; [|split].
    + split.
      * intros H. split; [exact N|].
        destruct (http_transport (requests w) (SubscribeURL p))
          as [resp | ?]; [|discriminate].
        destruct (ioutil_ReadAll (http.Body_ resp)) as [body | ?] eqn:Hread;
          [|discriminate].
        exists resp, body. auto.
      * intros (_ & resp & body & Hget & Hread & Hxml).
        now rewrite Hget, Hread.
    + intros resp body _ Hget Hread. now rewrite Hget, Hread.
    + intros H. split; [exact N|].
      destruct (http_transport (requests w) (SubscribeURL p))
        as [resp | ?]; [|now elim H].
      destruct (ioutil_ReadAll (http.Body_ resp)) as [body | ?] eqn:Hread;
        [|now elim H].
      exists resp, body. auto.
Qed.

Lemma Subscribe_outcome_witness :
  fst (@Subscribe (fixture (Ok (response_with 200 "<ConfirmSubscriptionResponse/>")))
         sample_confirmation initial_world) =
  (ConfirmSubscriptionResponse_zero, None).
Proof.
  apply (proj1 (proj2 (@Subscribe_outcome
           (fixture (Ok (response_with 200 "<ConfirmSubscriptionResponse/>")))
           sample_confirmation initial_world))
           (response_with 200 "<ConfirmSubscriptionResponse/>")
           (bytes_of "<ConfirmSubscriptionResponse/>")).
  - discriminate.
  - reflexivity.
  - reflexivity.
Defined.

(** X12: [Unsubscribe] returns no error exactly when its GET gives a
    response, the body reads, and [xml.Unmarshal] reports no error. Once
    the body has been read the result is the record and the error of
    [xml.Unmarshal]; with a failed GET or a failed read the zero record is
    returned. *)
Theorem Unsubscribe_outcome {C : Collaborators} (p : Payload) (w : World) :
  (snd (fst (Unsubscribe p w)) = None <->
   exists resp body,
     http_transport (requests w) (UnsubscribeURL p) = Ok resp /\
     ioutil_ReadAll (http.Body_ resp) = Ok body /\
     snd (xml_Unmarshal_Unsubscribe body UnsubscribeResponse_zero) = None) /\
  (forall resp body,
     http_transport (requests w) (UnsubscribeURL p) = Ok resp ->
     ioutil_ReadAll (http.Body_ resp) = Ok body ->
     fst (Unsubscribe p w) =
     xml_Unmarshal_Unsubscribe body UnsubscribeResponse_zero) /\
  (fst (fst (Unsubscribe p w)) <> UnsubscribeResponse_zero ->
   exists resp body,
     http_transport (requests w) (UnsubscribeURL p) = Ok resp /\
     ioutil_ReadAll (http.Body_ resp) = Ok body).
Proof.
  rewrite (Unsubscribe_run p w). cbn [fst snd]. split; [|split].
  - split.
    + intros H.
      destruct (http_transport (requests w) (UnsubscribeURL p))
        as [resp | ?]; [|discriminate].
      destruct (ioutil_ReadAll (http.Body_ resp)) as [body | ?] eqn:Hread;
        [|discriminate].
      exists resp, body. auto.
    + intros (resp & body & Hget & Hread & Hxml). now rewrite Hget, Hread.
  - intros resp body Hget Hread. now rewrite Hget, Hread.
  - intros H.
    destruct (http_transport (requests w) (UnsubscribeURL p))
      as [resp | ?]; [|now elim H].
    destruct (ioutil_ReadAll (http.Body_ resp)) as [body | ?] eqn:Hread;
      [|now elim H].
    exists resp, body. auto.
Qed.

Lemma Unsubscribe_outcome_witness :
  fst (@Unsubscribe (fixture (Ok (response_with 200 "<UnsubscribeResponse/>")))
         sample_notification initial_world) =
  (UnsubscribeResponse_zero, None).
Proof.
  apply (proj1 (proj2 (@Unsubscribe_outcome
           (fixture (Ok (response_with 200 "<UnsubscribeResponse/>")))
           sample_notification initial_world))
           (response_with 200 "<UnsubscribeResponse/>")
           (bytes_of "<UnsubscribeResponse/>")).
  - reflexivity.
  - reflexivity.
Defined.

(** X13: [Subscribe] with a SubscribeURL, and [Unsubscribe] always, make
    exactly one request, the GET of their URL, and leave no response body
    open, whether they succeed or fail. *)
Theorem confirmation_calls_world {C : Collaborators} (p : Payload) (w : World) :
  (SubscribeURL p <> EmptyString ->
   snd (Subscribe p w) = after_request w (SubscribeURL p)) /\
  snd (Unsubscribe p w) = after_request w (UnsubscribeURL p).
Proof.
  split.
  - intros N. now rewrite (Subscribe_run p w N).
  - now rewrite (Unsubscribe_run p w).
Qed.

Lemma confirmation_calls_world_witness :
  snd (@Subscribe (fixture (Err (library_error "dial tcp: connection refused")))
         sample_confirmation initial_world) =
  after_request initial_world (SubscribeURL sample_confirmation).
Proof.
  apply (proj1 (@confirmation_calls_world
           (fixture (Err (library_error "dial tcp: connection refused")))
           sample_confirmation initial_world)).
  discriminate.
Defined.

(** X14: [Subscribe] reads nothing of the payload but its SubscribeURL and
    [Unsubscribe] nothing but its UnsubscribeURL: neither looks at the
    signature, so payloads with the same URL are treated alike, verified
    or not. *)
Theorem confirmation_calls_read_only_their_url {C : Collaborators}
    (p q : Payload) (w : World) :
  (SubscribeURL p = SubscribeURL q -> Subscribe p w = Subscribe q w) /\
  (UnsubscribeURL p = UnsubscribeURL q -> Unsubscribe p w = Unsubscribe q w).
Proof.
  split; intros H.
  - unfold Subscribe. now rewrite H.
  - unfold Unsubscribe. now rewrite H.
Qed.

Lemma confirmation_calls_read_only_their_url_witness :
  sample_confirmation <> sample_forged_confirmation /\
  @Subscribe (fixture (Ok (response_with 200 "<ConfirmSubscriptionResponse/>")))
    sample_confirmation initial_world =
  @Subscribe (fixture (Ok (response_with 200 "<ConfirmSubscriptionResponse/>")))
    sample_forged_confirmation initial_world.
Proof.
  split; [discriminate|].
  apply (proj1 (@confirmation_calls_read_only_their_url
           (fixture (Ok (response_with 200 "<ConfirmSubscriptionResponse/>")))
           sample_confirmation sample_forged_confirmation initial_world)).
  reflexivity.
Defined.

(** X15: [Subscribe] and [Unsubscribe] do not look at the status code of
    the response: whatever the status codes of the network are turned
    into, they return the same and leave the same world. *)
Theorem confirmation_calls_status_not_examined {C : Collaborators}
    (f : Z -> Z) (p : Payload) (w : World) :
  @Subscribe (with_status f C) p w = @Subscribe C p w /\
  @Unsubscribe (with_status f C) p w = @Unsubscribe C p w.
Proof.
  split.
  - destruct (String.eqb_spec (SubscribeURL p) EmptyString) as [E | N].
    + unfold Subscribe. now rewrite E.
    + rewrite (@Subscribe_run C p w N), (@Subscribe_run (with_status f C) p w N).
      f_equal. cbn.
      destruct (@http_transport C (requests w) (SubscribeURL p)); reflexivity.
  - rewrite (@Unsubscribe_run C p w), (@Unsubscribe_run (with_status f C) p w).
    f_equal. cbn.
    destruct (@http_transport C (requests w) (UnsubscribeURL p)); reflexivity.
Qed.

(** ** JsonDateTime *)

(** X16: [UnmarshalJSON] drops every double quote at either end of its
    input before parsing: a text without quotes, in quotes, or in any
    number of quotes on either side is treated alike. *)
Theorem UnmarshalJSON_quotes_dropped {T : TimeLibrary}
    (j : JsonDateTime) (n m : nat) (s : string) :
  UnmarshalJSON j (bytes_of (repeat_char quote n ++ s ++ repeat_char quote m)) =
  UnmarshalJSON j (bytes_of s).
Proof.
  unfold UnmarshalJSON, bytes_of.
  rewrite !string_of_list_byte_of_string. now rewrite Trim_repeat.
Qed.

(** X17: the text that [UnmarshalJSON] hands to [time.Parse], with the
    RFC 3339 layout, is its input without the quotes at both ends, a text
    that neither starts nor ends with a quote. When it parses, [*j]
    becomes the parsed time and the error is [nil]; when it does not, the
    error of [time.Parse] is returned and [*j] keeps its value. *)
Theorem UnmarshalJSON_outcome {T : TimeLibrary} (j : JsonDateTime) (b : list byte) :
  exists (n m : nat) (core : string),
    string_of_list_byte b =
      (repeat_char quote n ++ core ++ repeat_char quote m)%string /\
    ~ starts_with quote core /\ ~ ends_with quote core /\
    UnmarshalJSON j b =
    match time_Parse time_RFC3339 core with
    | Err err => (j, Some err)
    | Ok t => (t, None)
    end.
Proof.
  destruct (Trim_split quote (string_of_list_byte b)) as (n & m & Hs & Hstart & Hend).
  exists n, m, (strings.Trim (string_of_list_byte b) quote).
  repeat split; assumption || reflexivity.
Qed.

(** X18: [UnmarshalJSON] undoes [MarshalJSON] whenever the library writes
    the time as a text in double quotes that [time.Parse] reads back with
    the RFC 3339 layout. *)
Theorem JsonDateTime_round_trip {T : TimeLibrary}
    (j t : JsonDateTime) (text : string) (out : list byte) :
  MarshalJSON t = Ok out ->
  out = bytes_of (String quote (text ++ String quote EmptyString)) ->
  ~ starts_with quote text -> ~ ends_with quote text ->
  time_Parse time_RFC3339 text = Ok t ->
  UnmarshalJSON j out = (t, None).
Proof.
  intros _ -> Hstart Hend Hparse. unfold UnmarshalJSON, bytes_of.
  rewrite string_of_list_byte_of_string.
  change (String quote (text ++ String quote EmptyString))
    with (repeat_char quote 1 ++ text ++ repeat_char quote 1)%string.
  rewrite Trim_repeat, (Trim_unquoted quote text Hstart Hend).
  now rewrite Hparse.
Qed.

Lemma JsonDateTime_round_trip_witness :
  @UnmarshalJSON time_fixture "1999-12-31T23:59:59Z"
    (bytes_of (String quote ("2020-01-01T00:00:00Z" ++ String quote EmptyString))) =
  ("2020-01-01T00:00:00Z", None).
Proof.
  apply (@JsonDateTime_round_trip time_fixture "1999-12-31T23:59:59Z"
           "2020-01-01T00:00:00Z" "2020-01-01T00:00:00Z").
  - reflexivity.
  - reflexivity.
  - intros (t & H). discriminate H.
  - intros H. apply ends_with_get in H. vm_compute in H. discriminate H.
  - reflexivity.
Defined.
